(** * The two-stage fallback policy of rasa_core

    A shallow embedding of [rasa_core/policies/two_stage_fallback.py]:
    the ordered escalation rules of [predict_action_probabilities], the
    helpers it calls, and [persist] / [load].

    Conventions.
    - Python floats are rationals ([Q]); only comparison and storage are
      used by the policy.
    - A call that may raise returns a [result]; the exception is a value
      of [exn].
    - Reads of the dialogue tracker are effects: they run in the monad
      [M], which threads the list of accesses made so far, so that "the
      tracker is not touched" is a statement about that list. *)

From Stdlib Require Import QArith Ascii String.
From stdpp Require Import base option list gmap strings.

Local Open Scope string_scope.

(** ** Exceptions and results *)

Inductive exn : Type :=
| InvalidDomain (msg : string)      (* rasa_core.domain.InvalidDomain *)
| ActionNotFound (action : string)  (* Domain.index_for_action on an unknown name *)
| TypeError (what : string)         (* unexpected keyword argument, ill-typed value *)
| JSONDecodeError
| FileNotFoundError.

Inductive result (A : Type) : Type :=
| Ok (a : A)
| Err (e : exn).

Arguments Ok {A} a.
Arguments Err {A} e.

Definition is_ok {A} (r : result A) : bool :=
  match r with Ok _ => true | Err _ => false end.

(** ** Tracker accesses and the monad of predictions *)

Inductive Access : Type :=
| ReadLatestMessage                              (* tracker.latest_message.parse_data *)
| ReadLatestActionName                           (* tracker.latest_action_name *)
| CallLastExecutedHas (name : string) (skip : nat). (* tracker.last_executed_has(name, skip) *)

Definition M (A : Type) : Type := list Access -> result A * list Access.

Definition ret {A} (a : A) : M A := fun log => (Ok a, log).

Definition raise {A} (e : exn) : M A := fun log => (Err e, log).

Definition bind {A B} (m : M A) (f : A -> M B) : M B :=
  fun log =>
    match m log with
    | (Ok a, log') => f a log'
    | (Err e, log') => (Err e, log')
    end.

Definition lift {A} (r : result A) : M A := fun log => (r, log).

Definition access {A} (a : Access) (v : A) : M A :=
  fun log => (Ok v, (log ++ [a])%list).

Declare Scope py_scope.
Delimit Scope py_scope with py.
Notation "x <- m ;; k" := (bind m (fun x => k))
  (at level 100, m at next level, right associativity) : py_scope.

(** Result and access trace of a computation started on a fresh log. *)
Definition outcome {A} (m : M A) : result A := fst (m []).
Definition accesses {A} (m : M A) : list Access := snd (m []).

(** ** Numbers *)

(** [a < b] on floats. *)
Definition Qltb (a b : Q) : bool := negb (Qle_bool b a).

(** ** Strings: [str.format] with [{}] fields, and substring search *)

Fixpoint format (template : string) (args : list string) : string :=
  match template with
  | EmptyString => EmptyString
  | String "{"%char (String "}"%char rest) =>
      match args with
      | a :: args' => a ++ format rest args'
      | [] => format rest []
      end
  | String c rest => String c (format rest args)
  end.

Fixpoint is_prefix (s t : string) : bool :=
  match s, t with
  | EmptyString, _ => true
  | String a s', String b t' => if Ascii.eqb a b then is_prefix s' t' else false
  | String _ _, EmptyString => false
  end.

(** [s in t] for strings. *)
Fixpoint contains (s t : string) : bool :=
  is_prefix s t ||
  match t with
  | EmptyString => false
  | String _ t' => contains s t'
  end.

(** ** Constants of rasa_core *)

(** Modelled from the spec: the two reserved intents of
    [rasa_core.constants] (not under the sources), with the names the
    specification gives them. *)
Definition USER_INTENT_CONFIRM : string := "confirm".
Definition USER_INTENT_DENY : string := "deny".

(** The listen action is named by a literal in the policy. *)
Definition ACTION_LISTEN_NAME : string := "action_listen".

(** The remaining constants ([rasa_core.actions.action],
    [rasa_core.constants]) are taken as parameters of the development. *)
Class Constants : Type := {
  ACTION_REVERT_FALLBACK_EVENTS : string;
  ACTION_DEFAULT_FALLBACK_NAME : string;
  ACTION_DEFAULT_ASK_CLARIFICATION : string;
  ACTION_DEFAULT_ASK_CONFIRMATION : string;
  FALLBACK_SCORE : Q
}.

(** ** Data model *)

(** The ["intent"] entry of a message's parse data.  A field is [None]
    when its key is absent from the dictionary. *)
Record Intent : Type := {
  intent_name : option string;
  intent_confidence : option Q
}.

Record ParseData : Type := { pd_intent : Intent }.

(** Modelled from the spec: the dialogue tracker ([rasa_core.trackers]
    is not under the sources).  It offers the three observations of the
    specification's history interface: the latest action name (none on
    an empty history), the system actions executed so far, most recent
    first, and the parse data of the latest user message. *)
Record DialogueStateTracker : Type := {
  latest_action_name : option string;
  executed : list string;
  latest_message_parse_data : ParseData
}.

(** Modelled from the spec: [tracker.last_executed_has(name, skip)] is
    true when the action [skip] positions back from the most recent
    system action is [name], and false on a shorter history. *)
Definition last_executed_has (tracker : DialogueStateTracker)
    (name : string) (skip : nat) : M bool :=
  access (CallLastExecutedHas name skip)
         (bool_decide (executed tracker !! skip = Some name)).

Definition get_latest_action_name (tracker : DialogueStateTracker)
  : M (option string) :=
  access ReadLatestActionName (latest_action_name tracker).

Definition get_parse_data (tracker : DialogueStateTracker) : M ParseData :=
  access ReadLatestMessage (latest_message_parse_data tracker).

Record Domain : Type := {
  intents : list string;
  action_names : list string
}.

Record TwoStageFallbackPolicy : Type := {
  nlu_threshold : Q;
  core_threshold : Q;
  fallback_action_name : string
}.

(** The constructor with its keyword defaults; [None] stands for an
    argument that is not passed. *)
Definition __init__ `{Constants} (nlu core : option Q) (name : option string)
  : TwoStageFallbackPolicy :=
  {| nlu_threshold := default (3 # 10) nlu;
     core_threshold := default (3 # 10) core;
     fallback_action_name := default ACTION_DEFAULT_FALLBACK_NAME name |}.

(** ** Collaborators of the policy *)

(** [list.index]: position of the first occurrence. *)
Fixpoint list_index (x : string) (l : list string) : option nat :=
  match l with
  | [] => None
  | y :: l' => if decide (y = x) then Some 0 else S <$> list_index x l'
  end.

(** Modelled from the spec: [confidence_scores_for(action_name, value,
    domain)] ([rasa_core.policies.policy] is not under the sources)
    builds a vector over every action of the domain, [value] at the
    action's position and zero elsewhere, and fails when the action is
    not in the domain. *)
Definition confidence_scores_for (action_name : string) (value : Q)
    (domain : Domain) : result (list Q) :=
  match list_index action_name (action_names domain) with
  | Some idx => Ok (<[idx := value]> (replicate (length (action_names domain)) 0%Q))
  | None => Err (ActionNotFound action_name)
  end.

(** Modelled from the spec: [FallbackPolicy.should_fallback]
    ([rasa_core.policies.fallback] is not under the sources): the
    confidence is below the NLU threshold and the last action is not the
    policy's own fallback action. *)
Definition should_fallback (self : TwoStageFallbackPolicy)
    (nlu_confidence : Q) (last_action_name : option string) : bool :=
  Qltb nlu_confidence (nlu_threshold self)
  && negb (bool_decide (last_action_name = Some (fallback_action_name self))).

(** Modelled from the spec: [FallbackPolicy.fallback_scores], the
    baseline vector that predicts the fallback action with the given
    confidence. *)
Definition fallback_scores (self : TwoStageFallbackPolicy) (domain : Domain)
    (fallback_score : Q) : result (list Q) :=
  confidence_scores_for (fallback_action_name self) fallback_score domain.

(** ** The policy *)

Section Policy.
Context `{Constants}.

Local Open Scope py_scope.

Definition has_user_confirmed (last_intent : option string)
    (tracker : DialogueStateTracker) : M bool :=
  asked <- last_executed_has tracker ACTION_DEFAULT_ASK_CONFIRMATION 0 ;;
  if asked : bool
  then ret (bool_decide (last_intent = Some USER_INTENT_CONFIRM))
  else ret false.

Definition _has_user_denied (last_intent : option string)
    (tracker : DialogueStateTracker) : M bool :=
  asked <- last_executed_has tracker ACTION_DEFAULT_ASK_CONFIRMATION 0 ;;
  if asked : bool
  then ret (bool_decide (last_intent = Some USER_INTENT_DENY))
  else ret false.

Definition has_user_clarified (tracker : DialogueStateTracker) : M bool :=
  last_executed_has tracker ACTION_DEFAULT_ASK_CLARIFICATION 0.

Definition __is_user_input_expected (self : TwoStageFallbackPolicy)
    (tracker : DialogueStateTracker) : M bool :=
  last <- get_latest_action_name tracker ;;
  ret (bool_decide (last ∈ [Some ACTION_DEFAULT_ASK_CONFIRMATION;
                            Some ACTION_DEFAULT_ASK_CLARIFICATION;
                            Some (fallback_action_name self)])).

Definition __results_for_user_denied (self : TwoStageFallbackPolicy)
    (tracker : DialogueStateTracker) (domain : Domain) : M (list Q) :=
  has_denied_before <-
    last_executed_has tracker ACTION_DEFAULT_ASK_CLARIFICATION 1 ;;
  if has_denied_before : bool
  then lift (confidence_scores_for (fallback_action_name self)
                                   FALLBACK_SCORE domain)
  else lift (confidence_scores_for ACTION_DEFAULT_ASK_CLARIFICATION
                                   FALLBACK_SCORE domain).

Definition invalid_domain_message : string :=
  format ("The intents {} and {} must be present in the "
          ++ "domain file to use this policy.")
         [USER_INTENT_CONFIRM; USER_INTENT_CONFIRM].

Definition predict_action_probabilities (self : TwoStageFallbackPolicy)
    (tracker : DialogueStateTracker) (domain : Domain) : M (list Q) :=
  if negb (bool_decide (USER_INTENT_CONFIRM ∈ intents domain))
     || negb (bool_decide (USER_INTENT_DENY ∈ intents domain))
  then raise (InvalidDomain invalid_domain_message)
  else
    nlu_data <- get_parse_data tracker ;;
    let nlu_confidence := default 1%Q (intent_confidence (pd_intent nlu_data)) in
    let last_intent_name := intent_name (pd_intent nlu_data) in
    last_action <- get_latest_action_name tracker ;;
    let should_fallback := should_fallback self nlu_confidence last_action in
    user_clarified <- has_user_clarified tracker ;;
    expected <- __is_user_input_expected self tracker ;;
    if expected : bool
    then lift (confidence_scores_for ACTION_LISTEN_NAME FALLBACK_SCORE domain)
    else
      denied <- _has_user_denied last_intent_name tracker ;;
      if denied : bool
      then __results_for_user_denied self tracker domain
      else if user_clarified && should_fallback
      then lift (confidence_scores_for ACTION_DEFAULT_ASK_CONFIRMATION
                                       FALLBACK_SCORE domain)
      else
        confirmed <- has_user_confirmed last_intent_name tracker ;;
        if confirmed || user_clarified
        then lift (confidence_scores_for ACTION_REVERT_FALLBACK_EVENTS
                                         FALLBACK_SCORE domain)
        else
          asked <- last_executed_has tracker ACTION_DEFAULT_ASK_CONFIRMATION 0 ;;
          if asked : bool
          then
            if negb should_fallback
            then lift (confidence_scores_for ACTION_REVERT_FALLBACK_EVENTS
                                             FALLBACK_SCORE domain)
            else lift (confidence_scores_for (fallback_action_name self)
                                             FALLBACK_SCORE domain)
          else if should_fallback
          then lift (confidence_scores_for ACTION_DEFAULT_ASK_CONFIRMATION
                                           FALLBACK_SCORE domain)
          else lift (fallback_scores self domain (core_threshold self)).

End Policy.

(** ** Persistence *)

(** Values of the flat JSON record written by [persist]. *)
Inductive jvalue : Type :=
| JNum (q : Q)
| JStr (s : string).

(** Python's [json] module: its text type and the two functions used.
    [json_loads] fails on text that does not denote a JSON object. *)
Class Json : Type := {
  Text : Type;
  json_dumps : gmap string jvalue -> Text;
  json_loads : Text -> result (gmap string jvalue)
}.

(** What the policy relies on: a dumped object is read back unchanged. *)
Definition json_round_trip `{Json} : Prop :=
  forall meta, json_loads (json_dumps meta) = Ok meta.

(** A path is kept as the list of its components, outermost first, so
    that [os.path.join path name] appends one component. *)
Abbreviation Path := (list string).

Definition os_path_join (path : Path) (name : string) : Path := (path ++ [name])%list.

Definition os_path_dirname (path : Path) : Path := removelast path.

(** A directory together with the directories above it, as [os.makedirs]
    creates them. *)
Definition ancestors (dir : Path) : list Path :=
  (fun n => take n dir) <$> seq 0 (S (length dir)).

Record FileSystem `{Json} : Type := {
  directories : gset Path;
  files : gmap Path Text
}.

Definition rbind {A B} (r : result A) (f : A -> result B) : result B :=
  match r with
  | Ok a => f a
  | Err e => Err e
  end.

Section Persistence.
Context `{Constants} `{Json}.

Definition os_path_isfile (fs : FileSystem) (path : Path) : bool :=
  bool_decide (is_Some (files fs !! path)).

Definition os_path_exists (fs : FileSystem) (path : Path) : bool :=
  bool_decide (path ∈ directories fs) || os_path_isfile fs path.

(** Modelled from the spec: [utils.create_dir_for_file] creates the
    missing parent directories of the file ([rasa_core.utils] is not
    under the sources). *)
Definition create_dir_for_file (file_path : Path) (fs : FileSystem)
  : FileSystem :=
  {| directories :=
       directories fs ∪ list_to_set (ancestors (os_path_dirname file_path));
     files := files fs |}.

(** Modelled from the spec: [utils.dump_obj_as_json_to_file] writes the
    JSON text of the object to the file. *)
Definition dump_obj_as_json_to_file (file_path : Path)
    (obj : gmap string jvalue) (fs : FileSystem) : FileSystem :=
  {| directories := directories fs;
     files := <[file_path := json_dumps obj]> (files fs) |}.

(** Modelled from the spec: [utils.read_file] returns the text of an
    existing file. *)
Definition read_file (fs : FileSystem) (file_path : Path) : result Text :=
  match files fs !! file_path with
  | Some text => Ok text
  | None => Err FileNotFoundError
  end.

Definition persist (self : TwoStageFallbackPolicy) (path : Path)
    (fs : FileSystem) : FileSystem :=
  let config_file := os_path_join path "two_stage_fallback_policy.json" in
  let meta : gmap string jvalue :=
    <["nlu_threshold" := JNum (nlu_threshold self)]>
      (<["core_threshold" := JNum (core_threshold self)]>
         (<["fallback_action_name" := JStr (fallback_action_name self)]> ∅)) in
  dump_obj_as_json_to_file config_file meta
    (create_dir_for_file config_file fs).

(** The keywords [__init__] accepts. *)
Definition init_keywords : gset string :=
  {[ "nlu_threshold"; "core_threshold"; "fallback_action_name" ]}.

Definition as_float (v : option jvalue) : result (option Q) :=
  match v with
  | None => Ok None
  | Some (JNum q) => Ok (Some q)
  | Some (JStr _) => Err (TypeError "float expected")
  end.

Definition as_text (v : option jvalue) : result (option string) :=
  match v with
  | None => Ok None
  | Some (JStr s) => Ok (Some s)
  | Some (JNum _) => Err (TypeError "str expected")
  end.

(** The class called on the entries of [meta] as keyword arguments: a
    key that is not a parameter of [__init__] is an
    unexpected keyword argument; a missing key takes the parameter's
    default.  Values are read at the types the constructor annotates; a
    value of another type lies outside this typed model and is reported
    as a type error. *)
Definition cls (meta : gmap string jvalue) : result TwoStageFallbackPolicy :=
  if bool_decide (dom meta ⊆ init_keywords)
  then
    rbind (as_float (meta !! "nlu_threshold")) (fun nlu =>
    rbind (as_float (meta !! "core_threshold")) (fun core =>
    rbind (as_text (meta !! "fallback_action_name")) (fun name =>
    Ok (__init__ nlu core name))))
  else Err (TypeError "unexpected keyword argument").

Definition load (path : Path) (fs : FileSystem)
  : result TwoStageFallbackPolicy :=
  let meta : result (gmap string jvalue) :=
    if os_path_exists fs path
    then
      let meta_path := os_path_join path "two_stage_fallback_policy.json" in
      if os_path_isfile fs meta_path
      then rbind (read_file fs meta_path) json_loads
      else Ok ∅
    else Ok ∅ in
  rbind meta cls.

(** The record persisted under [path] is [meta]: the policy's file is
    there and its text denotes [meta]. *)
Definition persisted_record (fs : FileSystem) (path : Path)
    (meta : gmap string jvalue) : Prop :=
  exists text,
    files fs !! os_path_join path "two_stage_fallback_policy.json" = Some text
    /\ json_loads text = Ok meta.

(** The flat record that holds exactly the given fields. *)
Definition record_of (nlu core : option Q) (name : option string)
  : gmap string jvalue :=
  let put key (value : option jvalue) (record : gmap string jvalue) :=
    match value with
    | Some v => <[key := v]> record
    | None => record
    end in
  put "nlu_threshold" (JNum <$> nlu)
    (put "core_threshold" (JNum <$> core)
       (put "fallback_action_name" (JStr <$> name) ∅)).

End Persistence.

(** ** Vocabulary of the further properties *)

(** The questions the policy may put to the tracker. *)
Definition history_questions `{Constants} : list Access :=
  [ReadLatestMessage;
   ReadLatestActionName;
   CallLastExecutedHas ACTION_DEFAULT_ASK_CONFIRMATION 0;
   CallLastExecutedHas ACTION_DEFAULT_ASK_CLARIFICATION 0;
   CallLastExecutedHas ACTION_DEFAULT_ASK_CLARIFICATION 1].

(** The actions the policy may recommend. *)
Definition recommended_actions `{Constants} (self : TwoStageFallbackPolicy)
  : list string :=
  [ACTION_LISTEN_NAME;
   ACTION_DEFAULT_ASK_CONFIRMATION;
   ACTION_DEFAULT_ASK_CLARIFICATION;
   ACTION_REVERT_FALLBACK_EVENTS;
   fallback_action_name self].

(** Every file lies in a directory that exists. *)
Definition well_formed `{Json} (fs : FileSystem) : Prop :=
  map_Forall (fun file _ => os_path_dirname file ∈ directories fs) (files fs).

(** The file [persist] writes for a model directory. *)
Definition config_file_of (path : Path) : Path :=
  os_path_join path "two_stage_fallback_policy.json".

(** ** Concrete inputs *)

(** An instance of the constants: four pairwise different action names
    and the score 1.0 that the specification reports. *)
Definition rasa : Constants :=
  {| ACTION_REVERT_FALLBACK_EVENTS := "action_revert_fallback_events";
     ACTION_DEFAULT_FALLBACK_NAME := "action_default_fallback";
     ACTION_DEFAULT_ASK_CLARIFICATION := "action_default_ask_clarification";
     ACTION_DEFAULT_ASK_CONFIRMATION := "action_default_ask_confirmation";
     FALLBACK_SCORE := 1 |}.

(** A codec whose texts are the objects themselves. *)
Definition json_objects : Json :=
  {| Text := gmap string jvalue;
     json_dumps := fun meta => meta;
     json_loads := fun text => Ok text |}.

Definition default_policy : TwoStageFallbackPolicy :=
  @__init__ rasa None None None.

(** A policy whose NLU threshold lies above every confidence. *)
Definition wary_policy : TwoStageFallbackPolicy :=
  @__init__ rasa (Some (3 # 2)) None None.

(** A policy whose ultimate fallback is to listen. *)
Definition listening_policy : TwoStageFallbackPolicy :=
  @__init__ rasa None None (Some ACTION_LISTEN_NAME).

Definition tuned_policy : TwoStageFallbackPolicy :=
  @__init__ rasa (Some (1 # 2)) (Some (1 # 5)) (Some "utter_handoff").

Definition no_files : @FileSystem json_objects :=
  {| directories := ∅; files := ∅ |}.

(** A model directory whose record carries a key the constructor does
    not know. *)
Definition files_with_unknown_key : @FileSystem json_objects :=
  {| directories := {[ ["models"] ]};
     files := {[ ["models"; "two_stage_fallback_policy.json"] :=
                   ({[ "nlu_threshold" := JNum (1 # 2);
                       "priority" := JNum 1 ]} : gmap string jvalue) ]} |}.

(** A model directory whose record only sets the core threshold. *)
Definition files_with_partial_record : @FileSystem json_objects :=
  {| directories := {[ ["models"] ]};
     files := {[ ["models"; "two_stage_fallback_policy.json"] :=
                   ({[ "core_threshold" := JNum (1 # 5) ]} : gmap string jvalue) ]} |}.

Definition example_domain : Domain :=
  {| intents := ["greet"; "confirm"; "deny"];
     action_names := ["action_listen";
                      "action_default_fallback";
                      "action_revert_fallback_events";
                      "action_default_ask_confirmation";
                      "action_default_ask_clarification";
                      "utter_greet"] |}.

(** A domain without the [confirm] intent. *)
Definition domain_without_confirm : Domain :=
  {| intents := ["greet"; "deny"];
     action_names := action_names example_domain |}.

Definition message (name : option string) (confidence : option Q) : ParseData :=
  {| pd_intent := {| intent_name := name; intent_confidence := confidence |} |}.

(** No action executed yet, no user message received. *)
Definition empty_tracker : DialogueStateTracker :=
  {| latest_action_name := None;
     executed := [];
     latest_message_parse_data := message None None |}.

(** The confirmation prompt has just run, and the policy is asked for
    the action that follows it; the latest message is still the one that
    led to the prompt. *)
Definition just_asked_confirmation (name : option string) (confidence : option Q)
  : DialogueStateTracker :=
  {| latest_action_name := Some "action_default_ask_confirmation";
     executed := ["action_default_ask_confirmation"];
     latest_message_parse_data := message name confidence |}.

(** The second confirmation prompt has just run, after a clarification. *)
Definition just_asked_confirmation_again (name : option string)
    (confidence : option Q) : DialogueStateTracker :=
  {| latest_action_name := Some "action_default_ask_confirmation";
     executed := ["action_default_ask_confirmation";
                  "action_default_ask_clarification"];
     latest_message_parse_data := message name confidence |}.

(** The clarification prompt has just run, after a denied confirmation. *)
Definition just_asked_clarification (name : option string) (confidence : option Q)
  : DialogueStateTracker :=
  {| latest_action_name := Some "action_default_ask_clarification";
     executed := ["action_default_ask_clarification";
                  "action_default_ask_confirmation"];
     latest_message_parse_data := message name confidence |}.

(** The user has answered a prompt: the system listened after running
    the actions [actions] (most recent first). *)
Definition answered (actions : list string) (name : option string)
    (confidence : option Q) : DialogueStateTracker :=
  {| latest_action_name := Some ACTION_LISTEN_NAME;
     executed := actions;
     latest_message_parse_data := message name confidence |}.

(** ** Properties of the prediction *)

Definition valid_domain (domain : Domain) : Prop :=
  USER_INTENT_CONFIRM ∈ intents domain /\ USER_INTENT_DENY ∈ intents domain.

(** Rule 1 does not apply: the latest action is neither of the two
    prompts nor the policy's fallback action. *)
Definition not_awaiting_input `{Constants} (self : TwoStageFallbackPolicy)
    (tracker : DialogueStateTracker) : Prop :=
  latest_action_name tracker ∉ [Some ACTION_DEFAULT_ASK_CONFIRMATION;
                                Some ACTION_DEFAULT_ASK_CLARIFICATION;
                                Some (fallback_action_name self)].

(** The confidence and the fallback verdict the policy computes. *)
Definition nlu_confidence_of (tracker : DialogueStateTracker) : Q :=
  default 1%Q (intent_confidence (pd_intent (latest_message_parse_data tracker))).

Definition last_intent_of (tracker : DialogueStateTracker) : option string :=
  intent_name (pd_intent (latest_message_parse_data tracker)).

Definition verdict (self : TwoStageFallbackPolicy)
    (tracker : DialogueStateTracker) : bool :=
  should_fallback self (nlu_confidence_of tracker) (latest_action_name tracker).

Section Decision.
Context `{Constants}.

(** The chain of rules read as a function of the tracker's facts; the
    effectful prediction computes exactly this on a valid domain
    ([predict_outcome] below). *)
Definition decision (self : TwoStageFallbackPolicy)
    (tracker : DialogueStateTracker) (domain : Domain) : result (list Q) :=
  let asked := bool_decide (executed tracker !! 0 = Some ACTION_DEFAULT_ASK_CONFIRMATION) in
  let clarified := bool_decide (executed tracker !! 0 = Some ACTION_DEFAULT_ASK_CLARIFICATION) in
  let last_intent := last_intent_of tracker in
  if bool_decide (latest_action_name tracker
                  ∈ [Some ACTION_DEFAULT_ASK_CONFIRMATION;
                     Some ACTION_DEFAULT_ASK_CLARIFICATION;
                     Some (fallback_action_name self)])
  then confidence_scores_for ACTION_LISTEN_NAME FALLBACK_SCORE domain
  else if asked && bool_decide (last_intent = Some USER_INTENT_DENY)
  then
    if bool_decide (executed tracker !! 1 = Some ACTION_DEFAULT_ASK_CLARIFICATION)
    then confidence_scores_for (fallback_action_name self) FALLBACK_SCORE domain
    else confidence_scores_for ACTION_DEFAULT_ASK_CLARIFICATION FALLBACK_SCORE domain
  else if clarified && verdict self tracker
  then confidence_scores_for ACTION_DEFAULT_ASK_CONFIRMATION FALLBACK_SCORE domain
  else if asked && bool_decide (last_intent = Some USER_INTENT_CONFIRM) || clarified
  then confidence_scores_for ACTION_REVERT_FALLBACK_EVENTS FALLBACK_SCORE domain
  else if asked
  then
    if negb (verdict self tracker)
    then confidence_scores_for ACTION_REVERT_FALLBACK_EVENTS FALLBACK_SCORE domain
    else confidence_scores_for (fallback_action_name self) FALLBACK_SCORE domain
  else if verdict self tracker
  then confidence_scores_for ACTION_DEFAULT_ASK_CONFIRMATION FALLBACK_SCORE domain
  else fallback_scores self domain (core_threshold self).

End Decision.

(** ** The invalid-domain error *)

Section InvalidDomain.
Context `{Constants}.

Lemma predict_invalid_domain self tracker domain log :
  USER_INTENT_CONFIRM ∉ intents domain \/ USER_INTENT_DENY ∉ intents domain ->
  predict_action_probabilities self tracker domain log
  = (Err (InvalidDomain invalid_domain_message), log).
Proof.
  intros Hmissing. unfold predict_action_probabilities.
  destruct Hmissing as [Hc | Hd].
  - rewrite (bool_decide_eq_false_2 _ Hc). reflexivity.
  - rewrite (bool_decide_eq_false_2 _ Hd).
    rewrite orb_true_r. reflexivity.
Qed.

(** C1: on a domain that lacks [confirm] or [deny] the prediction
    raises the invalid-domain error, and it does so without a single
    access to the tracker: the trace of accesses is empty, and the
    outcome is the same for every tracker. *)
Theorem invalid_domain_fails_before_history self tracker domain :
  USER_INTENT_CONFIRM ∉ intents domain \/ USER_INTENT_DENY ∉ intents domain ->
  outcome (predict_action_probabilities self tracker domain)
    = Err (InvalidDomain invalid_domain_message)
  /\ accesses (predict_action_probabilities self tracker domain) = []
  /\ forall tracker' log,
       predict_action_probabilities self tracker' domain log
       = (Err (InvalidDomain invalid_domain_message), log).
Proof.
  intros Hmissing. unfold outcome, accesses.
  rewrite (predict_invalid_domain _ _ _ [] Hmissing).
  repeat split. intros tracker' log.
  apply predict_invalid_domain, Hmissing.
Qed.

(** C9: the message of the invalid-domain error is built by filling
    both placeholders of the template with the [confirm] intent name;
    the text therefore reads "confirm and confirm" and nowhere contains
    the name of the [deny] intent, whichever of the two intents the
    domain lacks. *)
Theorem invalid_domain_message_names_confirm_twice self tracker domain :
  USER_INTENT_CONFIRM ∉ intents domain \/ USER_INTENT_DENY ∉ intents domain ->
  exists msg,
    outcome (predict_action_probabilities self tracker domain)
      = Err (InvalidDomain msg)
    /\ msg = format ("The intents {} and {} must be present in the "
                     ++ "domain file to use this policy.")
                    [USER_INTENT_CONFIRM; USER_INTENT_CONFIRM]
    /\ msg = "The intents confirm and confirm must be present in the "
             ++ "domain file to use this policy."
    /\ contains USER_INTENT_CONFIRM msg = true
    /\ contains USER_INTENT_DENY msg = false.
Proof.
  intros Hmissing. exists invalid_domain_message.
  unfold outcome. rewrite (predict_invalid_domain _ _ _ [] Hmissing).
  repeat split.
Qed.

End InvalidDomain.

Lemma invalid_domain_fails_before_history_witness :
  (USER_INTENT_CONFIRM ∉ intents domain_without_confirm
   \/ USER_INTENT_DENY ∉ intents domain_without_confirm)
  /\ accesses (@predict_action_probabilities rasa default_policy
                 (just_asked_confirmation (Some "deny") (Some (1 # 5)))
                 domain_without_confirm) = [].
Proof.
  assert (Hmissing : USER_INTENT_CONFIRM ∉ intents domain_without_confirm
                     \/ USER_INTENT_DENY ∉ intents domain_without_confirm).
  { left. apply (proj1 (bool_decide_eq_false _)). vm_compute. reflexivity. }
  split; [exact Hmissing |].
  exact (proj1 (proj2 (@invalid_domain_fails_before_history rasa default_policy
                         (just_asked_confirmation (Some "deny") (Some (1 # 5)))
                         domain_without_confirm Hmissing))).
Defined.

(** ** Score vectors *)

Lemma list_index_lookup x l i :
  list_index x l = Some i -> l !! i = Some x.
Proof.
  revert i. induction l as [| y l IH]; intros i; simpl; [discriminate |].
  destruct (decide (y = x)) as [-> | Hne].
  - intros [= <-]. reflexivity.
  - destruct (list_index x l) as [j |] eqn:Hj; simpl; [| discriminate].
    intros [= <-]. simpl. apply IH. reflexivity.
Qed.

Lemma list_index_elem_of x l :
  x ∈ l -> exists i, list_index x l = Some i.
Proof.
  induction 1 as [x l | x y l _ [i Hi]]; simpl.
  - rewrite decide_True by reflexivity. eauto.
  - destruct (decide (y = x)); [eauto |]. rewrite Hi. simpl. eauto.
Qed.

(** A recommendation of an action of the domain is a vector as long as
    the domain's action list, with the score at the action's position. *)
Lemma confidence_scores_for_ok name value domain :
  name ∈ action_names domain ->
  exists i scores,
    confidence_scores_for name value domain = Ok scores
    /\ action_names domain !! i = Some name
    /\ length scores = length (action_names domain)
    /\ scores !! i = Some value
    /\ forall j, j <> i -> j < length (action_names domain) ->
                 scores !! j = Some 0%Q.
Proof.
  intros Hin. destruct (list_index_elem_of _ _ Hin) as [i Hi].
  pose proof (list_index_lookup _ _ _ Hi) as Hlook.
  pose proof (lookup_lt_Some _ _ _ Hlook) as Hlt.
  exists i, (<[i := value]> (replicate (length (action_names domain)) 0%Q)).
  unfold confidence_scores_for. rewrite Hi.
  repeat split; [exact Hlook | | |].
  - rewrite length_insert, length_replicate. reflexivity.
  - apply list_lookup_insert_eq. rewrite length_replicate. exact Hlt.
  - intros j Hne Hj. rewrite list_lookup_insert_ne by congruence.
    apply lookup_replicate_2. exact Hj.
Qed.

(** Recommendations of two different actions at a non-zero score are
    different results. *)
Lemma confidence_scores_for_inj a b value domain :
  ~ (value == 0)%Q ->
  confidence_scores_for a value domain = confidence_scores_for b value domain ->
  a = b.
Proof.
  intros Hnz. unfold confidence_scores_for.
  destruct (list_index a (action_names domain)) as [i |] eqn:Hi;
    destruct (list_index b (action_names domain)) as [j |] eqn:Hj;
    try discriminate; [| congruence].
  intros [= Heq].
  pose proof (list_index_lookup _ _ _ Hi) as Ha.
  pose proof (list_index_lookup _ _ _ Hj) as Hb.
  destruct (decide (i = j)) as [-> | Hne]; [congruence |].
  exfalso. apply Hnz.
  assert (Hv : (<[i := value]> (replicate (length (action_names domain)) 0%Q))
                 !! i = Some value).
  { apply list_lookup_insert_eq. rewrite length_replicate.
    apply (lookup_lt_Some _ _ _ Ha). }
  rewrite Heq, list_lookup_insert_ne in Hv by congruence.
  apply lookup_replicate_1 in Hv as [<- _]. reflexivity.
Qed.

(** ** The ordered rules *)

Section Rules.
Context `{Constants}.

Lemma predict_outcome self tracker domain :
  valid_domain domain ->
  outcome (predict_action_probabilities self tracker domain)
  = decision self tracker domain.
Proof.
  intros [Hc Hd].
  unfold outcome, predict_action_probabilities, decision.
  rewrite (bool_decide_eq_true_2 _ Hc), (bool_decide_eq_true_2 _ Hd).
  unfold verdict, nlu_confidence_of, last_intent_of.
  unfold __is_user_input_expected, _has_user_denied, has_user_confirmed,
    has_user_clarified, __results_for_user_denied, last_executed_has,
    get_latest_action_name, get_parse_data, bind, access, ret, lift.
  simpl.
  destruct (should_fallback self _ (latest_action_name tracker));
    repeat (case_bool_decide; simpl; try reflexivity; try congruence).
Qed.

(** Settles the tests of [decision] from the facts at hand. *)
Ltac settle_rules :=
  repeat (case_bool_decide; simpl in *; try reflexivity; try congruence;
          try contradiction).

Lemma results_for_user_denied_outcome self tracker domain :
  outcome (__results_for_user_denied self tracker domain)
  = if bool_decide (executed tracker !! 1 = Some ACTION_DEFAULT_ASK_CLARIFICATION)
    then confidence_scores_for (fallback_action_name self) FALLBACK_SCORE domain
    else confidence_scores_for ACTION_DEFAULT_ASK_CLARIFICATION FALLBACK_SCORE domain.
Proof.
  unfold outcome, __results_for_user_denied, last_executed_has, bind, access, lift.
  simpl. case_bool_decide; reflexivity.
Qed.

(** C2, amended: when the guards of rule 2 and of rule 6 hold together
    (the last executed system action is the confirmation prompt, the
    last intent is [deny], the fallback verdict is true) and rule 1
    does not apply, the prediction is the result of the denial branch.
    That result is not the ask-confirmation recommendation of rule 6,
    as long as neither the clarification prompt nor the configured
    fallback action is the confirmation prompt itself and the score is
    not zero. *)
Theorem denial_wins_over_fresh_fallback self tracker domain :
  valid_domain domain ->
  not_awaiting_input self tracker ->
  executed tracker !! 0 = Some ACTION_DEFAULT_ASK_CONFIRMATION ->
  last_intent_of tracker = Some USER_INTENT_DENY ->
  verdict self tracker = true ->
  outcome (predict_action_probabilities self tracker domain)
    = outcome (__results_for_user_denied self tracker domain)
  /\ (ACTION_DEFAULT_ASK_CLARIFICATION <> ACTION_DEFAULT_ASK_CONFIRMATION ->
      fallback_action_name self <> ACTION_DEFAULT_ASK_CONFIRMATION ->
      ~ (FALLBACK_SCORE == 0)%Q ->
      outcome (predict_action_probabilities self tracker domain)
        <> confidence_scores_for ACTION_DEFAULT_ASK_CONFIRMATION
                                 FALLBACK_SCORE domain).
Proof.
  intros Hdom Hidle Hasked Hdeny Hlow.
  assert (Heq : outcome (predict_action_probabilities self tracker domain)
                = outcome (__results_for_user_denied self tracker domain)).
  { rewrite predict_outcome by exact Hdom.
    rewrite results_for_user_denied_outcome.
    unfold decision, not_awaiting_input in *. rewrite Hdeny, Hasked.
    settle_rules. }
  split; [exact Heq |].
  intros Hclar Hname Hscore. rewrite Heq, results_for_user_denied_outcome.
  case_bool_decide; intros Hsame;
    apply confidence_scores_for_inj in Hsame; congruence.
Qed.

(** C3, amended: when the last executed system action is the
    confirmation prompt, the last intent is [deny], and rule 1 does not
    apply, the prediction recommends the configured fallback action at
    [FALLBACK_SCORE] if the system action before the prompt was the
    clarification prompt, and the clarification prompt at
    [FALLBACK_SCORE] otherwise. *)
Theorem denial_asks_to_clarify_once self tracker domain :
  valid_domain domain ->
  not_awaiting_input self tracker ->
  executed tracker !! 0 = Some ACTION_DEFAULT_ASK_CONFIRMATION ->
  last_intent_of tracker = Some USER_INTENT_DENY ->
  (executed tracker !! 1 = Some ACTION_DEFAULT_ASK_CLARIFICATION ->
   outcome (predict_action_probabilities self tracker domain)
     = confidence_scores_for (fallback_action_name self) FALLBACK_SCORE domain)
  /\ (executed tracker !! 1 <> Some ACTION_DEFAULT_ASK_CLARIFICATION ->
      outcome (predict_action_probabilities self tracker domain)
        = confidence_scores_for ACTION_DEFAULT_ASK_CLARIFICATION
                                FALLBACK_SCORE domain).
Proof.
  intros Hdom Hidle Hasked Hdeny.
  rewrite predict_outcome by exact Hdom.
  unfold decision, not_awaiting_input in *. rewrite Hdeny, Hasked.
  split; intros Hbefore; settle_rules.
Qed.

(** C4, amended: when the last executed system action is the
    clarification prompt, rule 1 does not apply, and the two prompts
    are different actions, the prediction recommends the confirmation
    prompt at [FALLBACK_SCORE] if the fallback verdict is true and the
    revert action at [FALLBACK_SCORE] if it is false; in neither case
    is the result the recommendation of the clarification prompt
    (the revert action being another action and the score not zero). *)
Theorem clarification_never_repeats self tracker domain :
  valid_domain domain ->
  not_awaiting_input self tracker ->
  ACTION_DEFAULT_ASK_CLARIFICATION <> ACTION_DEFAULT_ASK_CONFIRMATION ->
  executed tracker !! 0 = Some ACTION_DEFAULT_ASK_CLARIFICATION ->
  (verdict self tracker = true ->
   outcome (predict_action_probabilities self tracker domain)
     = confidence_scores_for ACTION_DEFAULT_ASK_CONFIRMATION
                             FALLBACK_SCORE domain)
  /\ (verdict self tracker = false ->
      outcome (predict_action_probabilities self tracker domain)
        = confidence_scores_for ACTION_REVERT_FALLBACK_EVENTS
                                FALLBACK_SCORE domain)
  /\ (ACTION_REVERT_FALLBACK_EVENTS <> ACTION_DEFAULT_ASK_CLARIFICATION ->
      ~ (FALLBACK_SCORE == 0)%Q ->
      outcome (predict_action_probabilities self tracker domain)
        <> confidence_scores_for ACTION_DEFAULT_ASK_CLARIFICATION
                                 FALLBACK_SCORE domain).
Proof.
  intros Hdom Hidle Hprompts Hclar.
  rewrite predict_outcome by exact Hdom.
  unfold decision, not_awaiting_input in *. rewrite Hclar.
  repeat split.
  - intros ->. settle_rules.
  - intros ->. settle_rules.
  - intros Hrevert Hscore.
    destruct (verdict self tracker); settle_rules;
      intros Hsame; apply confidence_scores_for_inj in Hsame; congruence.
Qed.

(** C5, amended: when the last executed system action is the
    confirmation prompt, the last intent is [confirm], rule 1 does not
    apply, and the two prompts are different actions, the prediction
    recommends the revert action at [FALLBACK_SCORE], whatever the
    fallback verdict is: the statement has no hypothesis on the
    confidence of the confirming message. *)
Theorem confirmation_is_trusted self tracker domain :
  valid_domain domain ->
  not_awaiting_input self tracker ->
  ACTION_DEFAULT_ASK_CLARIFICATION <> ACTION_DEFAULT_ASK_CONFIRMATION ->
  executed tracker !! 0 = Some ACTION_DEFAULT_ASK_CONFIRMATION ->
  last_intent_of tracker = Some USER_INTENT_CONFIRM ->
  outcome (predict_action_probabilities self tracker domain)
    = confidence_scores_for ACTION_REVERT_FALLBACK_EVENTS FALLBACK_SCORE domain.
Proof.
  intros Hdom Hidle Hprompts Hasked Hconfirm.
  rewrite predict_outcome by exact Hdom.
  unfold decision, not_awaiting_input in *. rewrite Hconfirm, Hasked.
  destruct (verdict self tracker); settle_rules.
Qed.

(** C6, amended: on an empty history (no latest action, no executed
    system action, no confidence in the latest message) and a valid
    domain the tracker queries answer "not present" without failing:
    rule 1's test and every "last executed action is X" test are
    false.  If moreover the NLU threshold is at most the default
    confidence 1.0, the prediction is the baseline fallback vector
    built at the core threshold, which is a vector and not an error
    whenever the fallback action belongs to the domain. *)
Theorem empty_history_falls_through self tracker domain :
  valid_domain domain ->
  latest_action_name tracker = None ->
  executed tracker = [] ->
  intent_confidence (pd_intent (latest_message_parse_data tracker)) = None ->
  outcome (__is_user_input_expected self tracker) = Ok false
  /\ (forall name skip, outcome (last_executed_has tracker name skip) = Ok false)
  /\ ((nlu_threshold self <= 1)%Q ->
      outcome (predict_action_probabilities self tracker domain)
        = fallback_scores self domain (core_threshold self)
      /\ (fallback_action_name self ∈ action_names domain ->
          exists scores,
            outcome (predict_action_probabilities self tracker domain)
            = Ok scores)).
Proof.
  intros Hdom Hlast Hnone Hconf.
  assert (Hguard : forall name skip,
             bool_decide (executed tracker !! skip = Some name) = false).
  { intros name skip. rewrite Hnone. apply bool_decide_eq_false_2.
    rewrite lookup_nil. discriminate. }
  split; [| split].
  - unfold outcome, __is_user_input_expected, get_latest_action_name,
      bind, access, ret. simpl. rewrite Hlast. reflexivity.
  - intros name skip. unfold outcome, last_executed_has, access. simpl.
    rewrite Hguard. reflexivity.
  - intros Hthreshold.
    assert (Hout : outcome (predict_action_probabilities self tracker domain)
                   = fallback_scores self domain (core_threshold self)).
    { rewrite predict_outcome by exact Hdom.
      unfold decision. rewrite !Hguard.
      assert (Hverdict : verdict self tracker = false).
      { unfold verdict, should_fallback, nlu_confidence_of, Qltb.
        rewrite Hconf. simpl.
        rewrite (proj2 (Qle_bool_iff _ _) Hthreshold). reflexivity. }
      rewrite Hverdict, Hlast. reflexivity. }
    split; [exact Hout |].
    intros Hin. rewrite Hout. unfold fallback_scores.
    destruct (confidence_scores_for_ok _ (core_threshold self) _ Hin)
      as (i & scores & Hscores & _).
    exists scores. exact Hscores.
Qed.

(** C10, amended: when the latest message carries no intent name the
    extracted last intent is [None], which is neither [confirm] nor
    [deny]; the denial test and the confirmation test are then false.
    If moreover the last executed system action is the confirmation
    prompt, rule 1 does not apply, and the two prompts are different
    actions, the prediction is that of rule 5: the revert action when
    the fallback verdict is false, the configured fallback action when
    it is true. *)
Theorem nameless_intent_is_neither_answer self tracker domain :
  intent_name (pd_intent (latest_message_parse_data tracker)) = None ->
  last_intent_of tracker = None
  /\ last_intent_of tracker <> Some USER_INTENT_CONFIRM
  /\ last_intent_of tracker <> Some USER_INTENT_DENY
  /\ outcome (_has_user_denied (last_intent_of tracker) tracker) = Ok false
  /\ outcome (has_user_confirmed (last_intent_of tracker) tracker) = Ok false
  /\ (valid_domain domain ->
      not_awaiting_input self tracker ->
      ACTION_DEFAULT_ASK_CLARIFICATION <> ACTION_DEFAULT_ASK_CONFIRMATION ->
      executed tracker !! 0 = Some ACTION_DEFAULT_ASK_CONFIRMATION ->
      outcome (predict_action_probabilities self tracker domain)
      = if negb (verdict self tracker)
        then confidence_scores_for ACTION_REVERT_FALLBACK_EVENTS
                                   FALLBACK_SCORE domain
        else confidence_scores_for (fallback_action_name self)
                                   FALLBACK_SCORE domain).
Proof.
  intros Hname. unfold last_intent_of. rewrite Hname.
  repeat split; try discriminate.
  - unfold outcome, _has_user_denied, last_executed_has, bind, access, ret.
    simpl. settle_rules.
  - unfold outcome, has_user_confirmed, last_executed_has, bind, access, ret.
    simpl. settle_rules.
  - intros Hdom Hidle Hprompts Hasked.
    rewrite predict_outcome by exact Hdom.
    unfold decision, not_awaiting_input, last_intent_of in *.
    rewrite Hname, Hasked.
    destruct (verdict self tracker); settle_rules.
Qed.

End Rules.

(** ** Persisting and loading the configuration *)

Section RoundTrip.
Context `{Constants} `{Json}.

Lemma ancestors_self (dir : Path) : dir ∈ ancestors dir.
Proof.
  unfold ancestors. apply list_elem_of_fmap.
  exists (length dir). split.
  - symmetry. apply firstn_all.
  - apply elem_of_seq. lia.
Qed.

Lemma dirname_join path name : os_path_dirname (os_path_join path name) = path.
Proof. apply removelast_last. Qed.

Lemma exists_after_persist self path fs :
  os_path_exists (persist self path fs) path = true.
Proof.
  unfold os_path_exists, persist, dump_obj_as_json_to_file, create_dir_for_file.
  cbn [directories]. rewrite dirname_join.
  rewrite bool_decide_eq_true_2; [reflexivity |].
  apply elem_of_union_r, elem_of_list_to_set, ancestors_self.
Qed.

Lemma record_of_keywords nlu core name :
  dom (record_of nlu core name) ⊆ init_keywords.
Proof.
  unfold record_of, init_keywords.
  destruct nlu, core, name; simpl;
    rewrite ?dom_insert_L, ?dom_empty_L;
    intros key; rewrite ?elem_of_union, ?elem_of_singleton, ?elem_of_empty;
    tauto.
Qed.

Lemma cls_record_of nlu core name :
  cls (record_of nlu core name) = Ok (__init__ nlu core name).
Proof.
  unfold cls.
  rewrite (bool_decide_eq_true_2 _ (record_of_keywords nlu core name)).
  unfold record_of.
  destruct nlu, core, name; simpl;
    repeat (rewrite ?lookup_insert_eq, ?lookup_empty;
            try rewrite lookup_insert_ne by discriminate);
    reflexivity.
Qed.

Lemma load_persisted fs path meta :
  os_path_exists fs path = true ->
  persisted_record fs path meta ->
  load path fs = cls meta.
Proof.
  intros Hdir (text & Hfile & Htext). unfold load.
  rewrite Hdir. unfold os_path_isfile, read_file. rewrite Hfile.
  rewrite bool_decide_eq_true_2 by eauto.
  simpl. rewrite Htext. reflexivity.
Qed.

(** C7: provided the JSON codec reads back what it wrote, loading from
    the path a policy was persisted to gives back that policy: its
    three fields are reproduced exactly, for every threshold pair and
    every fallback action name.  Loading from a path under which no
    policy file exists gives the constructor defaults: 0.3, 0.3 and the
    default fallback action name. *)
Theorem load_persist_round_trip :
  json_round_trip ->
  (forall self path fs, load path (persist self path fs) = Ok self)
  /\ (forall path fs,
        os_path_isfile fs (os_path_join path "two_stage_fallback_policy.json")
          = false ->
        load path fs
        = Ok {| nlu_threshold := 3 # 10;
                core_threshold := 3 # 10;
                fallback_action_name := ACTION_DEFAULT_FALLBACK_NAME |}).
Proof.
  intros Hjson. split.
  - intros self path fs.
    rewrite (load_persisted _ _
               (record_of (Some (nlu_threshold self))
                          (Some (core_threshold self))
                          (Some (fallback_action_name self)))).
    + rewrite cls_record_of. destruct self. reflexivity.
    + apply exists_after_persist.
    + eexists. split.
      * unfold persist, dump_obj_as_json_to_file. cbn [files].
        apply lookup_insert_eq.
      * apply Hjson.
  - intros path fs Hnone. unfold load. rewrite Hnone.
    destruct (os_path_exists fs path); reflexivity.
Qed.

(** C8, amended: a persisted record that lacks some of the three
    fields loads successfully, each missing field taking the
    constructor default and each present field its stored value; a
    record with a key that is none of the three fields does not load:
    the constructor rejects it as an unexpected keyword argument. *)
Theorem load_defaults_missing_rejects_unknown fs path meta :
  os_path_exists fs path = true ->
  persisted_record fs path meta ->
  (forall nlu core name,
      meta = record_of nlu core name ->
      load path fs
      = Ok {| nlu_threshold := default (3 # 10) nlu;
              core_threshold := default (3 # 10) core;
              fallback_action_name := default ACTION_DEFAULT_FALLBACK_NAME name |})
  /\ (forall key,
        is_Some (meta !! key) -> key ∉ init_keywords ->
        load path fs = Err (TypeError "unexpected keyword argument")).
Proof.
  intros Hdir Hrecord.
  rewrite (load_persisted _ _ _ Hdir Hrecord). split.
  - intros nlu core name ->. apply cls_record_of.
  - intros key Hkey Hunknown. unfold cls.
    rewrite bool_decide_eq_false_2; [reflexivity |].
    intros Hsub. apply Hunknown, Hsub, elem_of_dom, Hkey.
Qed.

End RoundTrip.

(** ** Further properties of the prediction *)

Section Prediction.
Context `{Constants}.

Ltac settle :=
  repeat (case_bool_decide; simpl in *; try reflexivity; try congruence;
          try contradiction).

Ltac run_policy :=
  unfold predict_action_probabilities, __is_user_input_expected,
    _has_user_denied, has_user_confirmed, has_user_clarified,
    __results_for_user_denied, last_executed_has, get_latest_action_name,
    get_parse_data, bind, access, ret, lift, raise.

(** Rule 1: while the latest action is one of the two prompts or the
    policy's fallback action, the prediction on a valid domain is to
    listen at [FALLBACK_SCORE], whatever the intent, the confidence and
    the executed actions are; the policy stops after four tracker
    accesses and puts no question about the confirmation prompt. *)
Theorem awaiting_input_listens self tracker domain :
  valid_domain domain ->
  latest_action_name tracker ∈ [Some ACTION_DEFAULT_ASK_CONFIRMATION;
                                Some ACTION_DEFAULT_ASK_CLARIFICATION;
                                Some (fallback_action_name self)] ->
  outcome (predict_action_probabilities self tracker domain)
    = confidence_scores_for ACTION_LISTEN_NAME FALLBACK_SCORE domain
  /\ accesses (predict_action_probabilities self tracker domain)
     = [ReadLatestMessage; ReadLatestActionName;
        CallLastExecutedHas ACTION_DEFAULT_ASK_CLARIFICATION 0;
        ReadLatestActionName].
Proof.
  intros Hdom Hwait. split.
  - rewrite predict_outcome by exact Hdom. unfold decision.
    rewrite (bool_decide_eq_true_2 _ Hwait). reflexivity.
  - destruct Hdom as [Hc Hd]. unfold accesses. run_policy.
    rewrite (bool_decide_eq_true_2 _ Hc), (bool_decide_eq_true_2 _ Hd).
    simpl. rewrite (bool_decide_eq_true_2 _ Hwait). reflexivity.
Qed.

(** Rule 6: on a valid domain, when rule 1 does not apply, the last
    executed system action is neither prompt and the fallback verdict is
    true, the prediction is the confirmation prompt at
    [FALLBACK_SCORE]. *)
Theorem fresh_low_confidence_asks_confirmation self tracker domain :
  valid_domain domain ->
  not_awaiting_input self tracker ->
  executed tracker !! 0 <> Some ACTION_DEFAULT_ASK_CONFIRMATION ->
  executed tracker !! 0 <> Some ACTION_DEFAULT_ASK_CLARIFICATION ->
  verdict self tracker = true ->
  outcome (predict_action_probabilities self tracker domain)
    = confidence_scores_for ACTION_DEFAULT_ASK_CONFIRMATION FALLBACK_SCORE domain.
Proof.
  intros Hdom Hidle Hconf Hclar Hlow.
  rewrite predict_outcome by exact Hdom.
  unfold decision, not_awaiting_input in *. rewrite Hlow. settle.
Qed.

(** Rule 7: on a valid domain, when rule 1 does not apply, the last
    executed system action is neither prompt and the fallback verdict is
    false, the prediction is the baseline vector of the fallback policy
    built at the core threshold. *)
Theorem confident_turn_defers_to_baseline self tracker domain :
  valid_domain domain ->
  not_awaiting_input self tracker ->
  executed tracker !! 0 <> Some ACTION_DEFAULT_ASK_CONFIRMATION ->
  executed tracker !! 0 <> Some ACTION_DEFAULT_ASK_CLARIFICATION ->
  verdict self tracker = false ->
  outcome (predict_action_probabilities self tracker domain)
    = fallback_scores self domain (core_threshold self).
Proof.
  intros Hdom Hidle Hconf Hclar Hhigh.
  rewrite predict_outcome by exact Hdom.
  unfold decision, not_awaiting_input in *. rewrite Hhigh. settle.
Qed.

(** Rule 5: on a valid domain, when rule 1 does not apply, the last
    executed system action is the confirmation prompt (a different
    action from the clarification prompt) and the last intent is neither
    [confirm] nor [deny], the reply counts as a restated intent: the
    prediction is the revert action if the fallback verdict is false and
    the configured fallback action if it is true, both at
    [FALLBACK_SCORE]. *)
Theorem other_reply_to_confirmation self tracker domain :
  valid_domain domain ->
  not_awaiting_input self tracker ->
  ACTION_DEFAULT_ASK_CLARIFICATION <> ACTION_DEFAULT_ASK_CONFIRMATION ->
  executed tracker !! 0 = Some ACTION_DEFAULT_ASK_CONFIRMATION ->
  last_intent_of tracker <> Some USER_INTENT_CONFIRM ->
  last_intent_of tracker <> Some USER_INTENT_DENY ->
  (verdict self tracker = false ->
   outcome (predict_action_probabilities self tracker domain)
     = confidence_scores_for ACTION_REVERT_FALLBACK_EVENTS FALLBACK_SCORE domain)
  /\ (verdict self tracker = true ->
      outcome (predict_action_probabilities self tracker domain)
        = confidence_scores_for (fallback_action_name self) FALLBACK_SCORE domain).
Proof.
  intros Hdom Hidle Hprompts Hasked Hconfirm Hdeny.
  rewrite predict_outcome by exact Hdom.
  unfold decision, not_awaiting_input in *. rewrite Hasked.
  split; intros ->; settle.
Qed.

Lemma list_index_not_elem_of x l : list_index x l = None -> x ∉ l.
Proof.
  intros Hnone Hin. destruct (list_index_elem_of _ _ Hin) as [i Hi]. congruence.
Qed.

Lemma confidence_scores_for_err action value domain e :
  confidence_scores_for action value domain = Err e ->
  e = ActionNotFound action /\ action ∉ action_names domain.
Proof.
  unfold confidence_scores_for.
  destruct (list_index action (action_names domain)) eqn:Hindex; [discriminate |].
  intros [= <-]. split; [reflexivity | apply list_index_not_elem_of, Hindex].
Qed.

Lemma confidence_scores_for_score_inj action v w domain :
  action ∈ action_names domain ->
  confidence_scores_for action v domain = confidence_scores_for action w domain ->
  v = w.
Proof.
  intros Hin. destruct (list_index_elem_of _ _ Hin) as [i Hi].
  pose proof (lookup_lt_Some _ _ _ (list_index_lookup _ _ _ Hi)) as Hlt.
  unfold confidence_scores_for. rewrite Hi. intros [= Heq].
  assert (Hv : (<[i := v]> (replicate (length (action_names domain)) 0%Q))
                 !! i = Some v).
  { apply list_lookup_insert_eq. rewrite length_replicate. exact Hlt. }
  rewrite Heq, list_lookup_insert_eq in Hv
    by (rewrite length_replicate; exact Hlt).
  congruence.
Qed.

(** Whatever rule applies, the decision recommends one action. *)
Lemma decision_range self tracker domain :
  exists action score,
    decision self tracker domain = confidence_scores_for action score domain
    /\ action ∈ recommended_actions self
    /\ (score = FALLBACK_SCORE
        \/ (score = core_threshold self /\ action = fallback_action_name self)).
Proof.
  unfold decision, fallback_scores, recommended_actions.
  destruct (verdict self tracker);
    repeat (case_bool_decide; simpl);
    eexists _, _; (split; [reflexivity |]);
    (split; [rewrite !elem_of_cons; auto 10 | auto]).
Qed.

(** On a valid domain the prediction is always the recommendation of a
    single action, and that action is one of five: to listen, one of the
    two prompts, the revert action or the configured fallback action.
    The score is [FALLBACK_SCORE], except for the fallback action, which
    may also be scored at the core threshold. *)
Theorem prediction_recommends_one_reserved_action self tracker domain :
  valid_domain domain ->
  exists action score,
    outcome (predict_action_probabilities self tracker domain)
      = confidence_scores_for action score domain
    /\ action ∈ recommended_actions self
    /\ (score = FALLBACK_SCORE
        \/ (score = core_threshold self /\ action = fallback_action_name self)).
Proof.
  intros Hdom. rewrite predict_outcome by exact Hdom. apply decision_range.
Qed.

(** When the domain is valid and lists the five actions the policy may
    recommend, the prediction never raises: it is a vector with one
    score per action of the domain, zero everywhere but at the position
    of the recommended action. *)
Theorem prediction_succeeds_on_complete_domain self tracker domain :
  valid_domain domain ->
  (forall action, action ∈ recommended_actions self ->
                  action ∈ action_names domain) ->
  exists i action score scores,
    outcome (predict_action_probabilities self tracker domain) = Ok scores
    /\ action ∈ recommended_actions self
    /\ action_names domain !! i = Some action
    /\ length scores = length (action_names domain)
    /\ scores !! i = Some score
    /\ forall j, j <> i -> j < length (action_names domain) ->
                 scores !! j = Some 0%Q.
Proof.
  intros Hdom Hcomplete. rewrite predict_outcome by exact Hdom.
  destruct (decision_range self tracker domain)
    as (action & score & Hdecision & Haction & _).
  destruct (confidence_scores_for_ok action score domain (Hcomplete _ Haction))
    as (i & scores & Hscores & Hlookup & Hlength & Hi & Hzero).
  exists i, action, score, scores. rewrite Hdecision. auto 10.
Qed.

(** The prediction raises in two cases only: the domain lacks the
    [confirm] or the [deny] intent, or the action to recommend, one of
    the five the policy knows, is not an action of the domain. *)
Theorem prediction_errors self tracker domain e :
  outcome (predict_action_probabilities self tracker domain) = Err e ->
  (e = InvalidDomain invalid_domain_message /\ ~ valid_domain domain)
  \/ (exists action,
        e = ActionNotFound action
        /\ action ∈ recommended_actions self
        /\ action ∉ action_names domain).
Proof.
  intros Herr.
  destruct (decide (USER_INTENT_CONFIRM ∈ intents domain)) as [Hc | Hc];
    [destruct (decide (USER_INTENT_DENY ∈ intents domain)) as [Hd | Hd] |].
  - right. rewrite predict_outcome in Herr by (split; assumption).
    destruct (decision_range self tracker domain)
      as (action & score & Hdecision & Haction & _).
    rewrite Hdecision in Herr.
    apply confidence_scores_for_err in Herr as [-> Hout]. eauto.
  - left. unfold outcome in Herr.
    rewrite (predict_invalid_domain _ _ _ [] (or_intror Hd)) in Herr.
    simpl in Herr. injection Herr as <-.
    split; [reflexivity | intros [_ Hd']; contradiction].
  - left. unfold outcome in Herr.
    rewrite (predict_invalid_domain _ _ _ [] (or_introl Hc)) in Herr.
    simpl in Herr. injection Herr as <-.
    split; [reflexivity | intros [Hc' _]; contradiction].
Qed.

(** The policy gives up only after it has asked for confirmation: if
    the prediction is the configured fallback action at
    [FALLBACK_SCORE] (an action of the domain other than the listen, the
    prompt and the revert actions, the score being neither zero nor the
    core threshold), then the last executed system action is the
    confirmation prompt; moreover a [deny] was preceded by the
    clarification prompt, and any other reply had a true fallback
    verdict. *)
Theorem gives_up_only_after_confirmation self tracker domain :
  valid_domain domain ->
  fallback_action_name self ∈ action_names domain ->
  fallback_action_name self ∉ [ACTION_LISTEN_NAME;
                               ACTION_DEFAULT_ASK_CONFIRMATION;
                               ACTION_DEFAULT_ASK_CLARIFICATION;
                               ACTION_REVERT_FALLBACK_EVENTS] ->
  ~ (FALLBACK_SCORE == 0)%Q ->
  ~ (core_threshold self == FALLBACK_SCORE)%Q ->
  outcome (predict_action_probabilities self tracker domain)
    = confidence_scores_for (fallback_action_name self) FALLBACK_SCORE domain ->
  executed tracker !! 0 = Some ACTION_DEFAULT_ASK_CONFIRMATION
  /\ (last_intent_of tracker = Some USER_INTENT_DENY ->
      executed tracker !! 1 = Some ACTION_DEFAULT_ASK_CLARIFICATION)
  /\ (last_intent_of tracker <> Some USER_INTENT_DENY ->
      verdict self tracker = true).
Proof.
  intros Hdom Hin Hother Hscore Hcore.
  rewrite predict_outcome by exact Hdom.
  assert (Hnames : forall action,
             action ∈ [ACTION_LISTEN_NAME; ACTION_DEFAULT_ASK_CONFIRMATION;
                       ACTION_DEFAULT_ASK_CLARIFICATION;
                       ACTION_REVERT_FALLBACK_EVENTS] ->
             confidence_scores_for action FALLBACK_SCORE domain
             <> confidence_scores_for (fallback_action_name self)
                                      FALLBACK_SCORE domain).
  { intros action Haction Hsame.
    apply confidence_scores_for_inj in Hsame; [| exact Hscore].
    subst action. contradiction. }
  assert (Hbase : fallback_scores self domain (core_threshold self)
                  <> confidence_scores_for (fallback_action_name self)
                                           FALLBACK_SCORE domain).
  { unfold fallback_scores. intros Hsame.
    apply confidence_scores_for_score_inj in Hsame; [| exact Hin].
    apply Hcore. rewrite Hsame. reflexivity. }
  unfold decision.
  destruct (verdict self tracker);
    repeat (case_bool_decide; simpl);
    intros Hresult;
    try (exfalso; revert Hresult;
         first [exact Hbase
               | apply Hnames; solve [rewrite !elem_of_cons; auto 10]]);
    repeat split; intros; unfold last_intent_of in *; congruence.
Qed.

Lemma has_user_confirmed_outcome last_intent tracker :
  outcome (has_user_confirmed last_intent tracker)
  = Ok (bool_decide (executed tracker !! 0 = Some ACTION_DEFAULT_ASK_CONFIRMATION)
        && bool_decide (last_intent = Some USER_INTENT_CONFIRM)).
Proof. unfold outcome. run_policy. simpl. case_bool_decide; reflexivity. Qed.

Lemma has_user_denied_outcome last_intent tracker :
  outcome (_has_user_denied last_intent tracker)
  = Ok (bool_decide (executed tracker !! 0 = Some ACTION_DEFAULT_ASK_CONFIRMATION)
        && bool_decide (last_intent = Some USER_INTENT_DENY)).
Proof. unfold outcome. run_policy. simpl. case_bool_decide; reflexivity. Qed.

Lemma has_user_clarified_outcome tracker :
  outcome (has_user_clarified tracker)
  = Ok (bool_decide (executed tracker !! 0 = Some ACTION_DEFAULT_ASK_CLARIFICATION)).
Proof. reflexivity. Qed.

(** The three answers the policy tells apart exclude each other: a
    reply is never both a confirmation and a denial, and, the two
    prompts being different actions, a clarification is neither. *)
Theorem answers_exclude_each_other last_intent tracker :
  ACTION_DEFAULT_ASK_CLARIFICATION <> ACTION_DEFAULT_ASK_CONFIRMATION ->
  (outcome (has_user_confirmed last_intent tracker) = Ok true ->
   outcome (_has_user_denied last_intent tracker) = Ok false
   /\ outcome (has_user_clarified tracker) = Ok false)
  /\ (outcome (_has_user_denied last_intent tracker) = Ok true ->
      outcome (has_user_confirmed last_intent tracker) = Ok false
      /\ outcome (has_user_clarified tracker) = Ok false)
  /\ (outcome (has_user_clarified tracker) = Ok true ->
      outcome (has_user_confirmed last_intent tracker) = Ok false
      /\ outcome (_has_user_denied last_intent tracker) = Ok false).
Proof.
  intros Hprompts.
  rewrite has_user_confirmed_outcome, has_user_denied_outcome,
    has_user_clarified_outcome.
  unfold USER_INTENT_CONFIRM, USER_INTENT_DENY.
  repeat case_bool_decide; simpl;
    repeat split; intros; try reflexivity; try discriminate; congruence.
Qed.

(** The policy puts five questions to the tracker at most: the latest
    message, the latest action name, whether the last executed action is
    either prompt, and whether the action before it is the clarification
    prompt.  It never looks further back than one action before the
    last, makes at most seven accesses in a call, and reads the latest
    message once, before anything else. *)
Theorem tracker_is_asked_five_questions self tracker domain :
  Forall (fun a => a ∈ history_questions)
         (accesses (predict_action_probabilities self tracker domain))
  /\ length (accesses (predict_action_probabilities self tracker domain)) <= 7
  /\ (accesses (predict_action_probabilities self tracker domain) = []
      \/ exists rest,
           accesses (predict_action_probabilities self tracker domain)
           = ReadLatestMessage :: rest
           /\ ReadLatestMessage ∉ rest).
Proof.
  unfold accesses, history_questions. run_policy.
  destruct (should_fallback self
              (default 1%Q (intent_confidence
                              (pd_intent (latest_message_parse_data tracker))))
              (latest_action_name tracker)) eqn:Hverdict;
    repeat (case_bool_decide; simpl; try rewrite Hverdict; simpl);
    (split; [| split]);
    try (repeat constructor; rewrite !elem_of_cons; auto 10; fail);
    try (simpl; lia);
    try (left; reflexivity);
    right; eexists; (split; [reflexivity |]);
    rewrite !elem_of_cons, elem_of_nil; intuition discriminate.
Qed.

(** On a valid domain the policy asks whether the user has denied
    before (the action one before the last executed action) exactly when
    the denial rule applies: rule 1 does not, the last executed action
    is the confirmation prompt and the last intent is [deny]. *)
Theorem earlier_denial_is_asked_only_on_denial self tracker domain :
  valid_domain domain ->
  (CallLastExecutedHas ACTION_DEFAULT_ASK_CLARIFICATION 1
     ∈ accesses (predict_action_probabilities self tracker domain)
   <-> not_awaiting_input self tracker
       /\ executed tracker !! 0 = Some ACTION_DEFAULT_ASK_CONFIRMATION
       /\ last_intent_of tracker = Some USER_INTENT_DENY).
Proof.
  intros [Hc Hd]. unfold accesses, last_intent_of.
  run_policy.
  rewrite (bool_decide_eq_true_2 _ Hc), (bool_decide_eq_true_2 _ Hd). simpl.
  destruct (should_fallback self
              (default 1%Q (intent_confidence
                              (pd_intent (latest_message_parse_data tracker))))
              (latest_action_name tracker)) eqn:Hverdict;
    repeat (case_bool_decide; simpl; try rewrite Hverdict; simpl);
    rewrite !elem_of_cons, elem_of_nil;
    (split; [intros Hasked | intros (Hidle & Hasked & Hdeny)]);
    first
      [ solve [repeat split; assumption]
      | solve [auto 10]
      | solve [exfalso; apply Hidle; assumption]
      | solve [congruence]
      | solve [repeat (destruct Hasked as [Hasked | Hasked];
                       try discriminate Hasked);
               contradiction] ].
Qed.

End Prediction.

(** ** Further properties of persisting and loading *)

Section Storage.
Context `{Constants} `{Json}.

Lemma config_file_inj path other :
  config_file_of path = config_file_of other -> path = other.
Proof.
  unfold config_file_of, os_path_join. intros Heq.
  apply app_inj_tail in Heq as [Hpath _]. exact Hpath.
Qed.

Lemma files_persist_other self path fs file :
  file <> config_file_of path ->
  files (persist self path fs) !! file = files fs !! file.
Proof.
  intros Hne. unfold persist, dump_obj_as_json_to_file. cbn [files].
  apply lookup_insert_ne. intros Heq. apply Hne. symmetry. exact Heq.
Qed.

Lemma directories_persist self path fs dir :
  dir ∈ directories (persist self path fs)
  <-> dir ∈ directories fs \/ dir ∈ ancestors path.
Proof.
  unfold persist, dump_obj_as_json_to_file, create_dir_for_file.
  cbn [directories]. rewrite dirname_join, elem_of_union, elem_of_list_to_set.
  reflexivity.
Qed.

Lemma exists_persist_mono self path fs other :
  os_path_exists fs other = true ->
  os_path_exists (persist self path fs) other = true.
Proof.
  unfold os_path_exists, os_path_isfile. rewrite !orb_true_iff.
  rewrite !bool_decide_eq_true. intros [Hdir | [text Hfile]].
  - left. apply directories_persist. left. exact Hdir.
  - right. destruct (decide (other = config_file_of path)) as [-> | Hne].
    + unfold persist, dump_obj_as_json_to_file. cbn [files].
      unfold config_file_of. rewrite lookup_insert_eq. eauto.
    + rewrite files_persist_other by exact Hne. eauto.
Qed.


(** [persist] writes one file and nothing else: every other file keeps
    its content, no directory disappears, and the only directories that
    may appear are the model directory and the directories above it. *)
Theorem persist_writes_one_file self path fs :
  (forall file, file <> config_file_of path ->
                files (persist self path fs) !! file = files fs !! file)
  /\ directories fs ⊆ directories (persist self path fs)
  /\ (forall dir, dir ∈ directories (persist self path fs) ->
                  dir ∈ directories fs \/ exists n, dir = take n path).
Proof.
  split; [| split].
  - intros file Hne. apply files_persist_other, Hne.
  - apply elem_of_subseteq. intros dir Hdir.
    apply directories_persist. left. exact Hdir.
  - intros dir Hdir. apply directories_persist in Hdir as [Hold | Hnew].
    + left. exact Hold.
    + right. unfold ancestors in Hnew.
      apply list_elem_of_fmap in Hnew as (n & -> & _). eauto.
Qed.

(** The last policy persisted under a path wins: persisting over an
    earlier policy gives the very file system that persisting the later
    policy alone gives; in particular persisting twice is persisting
    once. *)
Theorem persist_last_write_wins earlier later path fs :
  persist later path (persist earlier path fs) = persist later path fs.
Proof.
  unfold persist, dump_obj_as_json_to_file, create_dir_for_file.
  cbn [directories files]. f_equal.
  - apply set_eq. intros dir. rewrite !elem_of_union. tauto.
  - apply insert_insert_eq.
Qed.


(** Persisting a policy under one path does not change what [load]
    returns for any other path of a well-formed file system. *)
Theorem persist_elsewhere_keeps_load self path other fs :
  well_formed fs ->
  other <> path ->
  load other (persist self path fs) = load other fs.
Proof.
  intros Hfs Hne. unfold load, os_path_isfile, read_file.
  assert (Hfile : files (persist self path fs)
                    !! os_path_join other "two_stage_fallback_policy.json"
                  = files fs
                    !! os_path_join other "two_stage_fallback_policy.json").
  { apply files_persist_other. intros Heq. apply Hne.
    apply config_file_inj. exact Heq. }
  rewrite Hfile.
  destruct (files fs !! os_path_join other "two_stage_fallback_policy.json")
    as [text |] eqn:Htext.
  - assert (Hdir : os_path_exists fs other = true).
    { unfold os_path_exists. rewrite bool_decide_eq_true_2; [reflexivity |].
      pose proof (Hfs _ _ Htext) as Hparent. cbn beta in Hparent.
      rewrite dirname_join in Hparent. exact Hparent. }
    rewrite (exists_persist_mono _ _ _ _ Hdir), Hdir. reflexivity.
  - rewrite bool_decide_eq_false_2 by (intros [? ?]; discriminate).
    destruct (os_path_exists (persist self path fs) other),
      (os_path_exists fs other); reflexivity.
Qed.

(** With a JSON codec that reads back what it wrote, the record found
    under a path after [persist] holds the three fields of the policy
    and no other key. *)
Theorem persisted_record_has_three_fields self path fs meta :
  json_round_trip ->
  persisted_record (persist self path fs) path meta ->
  dom meta = init_keywords
  /\ meta !! "nlu_threshold" = Some (JNum (nlu_threshold self))
  /\ meta !! "core_threshold" = Some (JNum (core_threshold self))
  /\ meta !! "fallback_action_name" = Some (JStr (fallback_action_name self)).
Proof.
  intros Hjson (text & Hfile & Htext).
  unfold persist, dump_obj_as_json_to_file in Hfile. cbn [files] in Hfile.
  rewrite lookup_insert_eq in Hfile. injection Hfile as <-.
  rewrite Hjson in Htext. injection Htext as <-.
  split; [| split; [| split]].
  - unfold init_keywords. rewrite !dom_insert_L, dom_empty_L.
    apply set_eq. intros key.
    rewrite !elem_of_union, !elem_of_singleton, elem_of_empty. tauto.
  - apply lookup_insert_eq.
  - rewrite lookup_insert_ne by discriminate. apply lookup_insert_eq.
  - rewrite !lookup_insert_ne by discriminate. apply lookup_insert_eq.
Qed.


End Storage.

(** ** The theorems at concrete inputs *)

#[local] Existing Instance rasa.
#[local] Existing Instance json_objects.

Ltac by_evaluation :=
  first
    [ reflexivity
    | vm_compute; reflexivity
    | apply (proj1 (bool_decide_eq_false _)); vm_compute; reflexivity
    | apply (bool_decide_unpack _); vm_compute; exact I
    | let Heq := fresh "Heq" in
      intros Heq; vm_compute in Heq; discriminate Heq ].

Lemma example_domain_valid : valid_domain example_domain.
Proof. split; by_evaluation. Qed.

Lemma domain_without_confirm_invalid :
  USER_INTENT_CONFIRM ∉ intents domain_without_confirm
  \/ USER_INTENT_DENY ∉ intents domain_without_confirm.
Proof. left. by_evaluation. Qed.

Lemma rasa_prompts_differ :
  ACTION_DEFAULT_ASK_CLARIFICATION <> ACTION_DEFAULT_ASK_CONFIRMATION.
Proof. simpl. discriminate. Qed.

Lemma answered_not_awaiting actions name confidence :
  not_awaiting_input default_policy (answered actions name confidence).
Proof. unfold not_awaiting_input. by_evaluation. Qed.

Lemma invalid_domain_message_names_confirm_twice_witness :
  (USER_INTENT_CONFIRM ∉ intents domain_without_confirm
   \/ USER_INTENT_DENY ∉ intents domain_without_confirm)
  /\ exists msg,
       outcome (predict_action_probabilities default_policy empty_tracker
                  domain_without_confirm) = Err (InvalidDomain msg)
       /\ contains USER_INTENT_DENY msg = false.
Proof.
  split; [exact domain_without_confirm_invalid |].
  destruct (invalid_domain_message_names_confirm_twice default_policy
              empty_tracker domain_without_confirm
              domain_without_confirm_invalid)
    as (msg & Hout & _ & _ & _ & Hdeny).
  exists msg. split; [exact Hout | exact Hdeny].
Defined.

(** C2 as stated fails right after the confirmation prompt has run on a
    low-confidence message classified as [deny]: the guards of rules 2
    and 6 hold, and so does the guard of rule 1, which wins; the
    prediction is to listen, not the result of the denial branch. *)
Lemma denial_shadowed_by_pending_prompt :
  valid_domain example_domain
  /\ executed (just_asked_confirmation (Some "deny") (Some (1 # 5))) !! 0
     = Some ACTION_DEFAULT_ASK_CONFIRMATION
  /\ last_intent_of (just_asked_confirmation (Some "deny") (Some (1 # 5)))
     = Some USER_INTENT_DENY
  /\ verdict default_policy (just_asked_confirmation (Some "deny") (Some (1 # 5)))
     = true
  /\ outcome (predict_action_probabilities default_policy
                (just_asked_confirmation (Some "deny") (Some (1 # 5)))
                example_domain)
     = confidence_scores_for ACTION_LISTEN_NAME FALLBACK_SCORE example_domain
  /\ outcome (predict_action_probabilities default_policy
                (just_asked_confirmation (Some "deny") (Some (1 # 5)))
                example_domain)
     <> outcome (__results_for_user_denied default_policy
                   (just_asked_confirmation (Some "deny") (Some (1 # 5)))
                   example_domain).
Proof. repeat split; try by_evaluation; apply example_domain_valid. Qed.

Lemma denial_wins_over_fresh_fallback_witness :
  verdict default_policy
    (answered ["action_default_ask_confirmation"] (Some "deny") (Some (1 # 5)))
  = true
  /\ outcome (predict_action_probabilities default_policy
                (answered ["action_default_ask_confirmation"]
                          (Some "deny") (Some (1 # 5)))
                example_domain)
     = outcome (__results_for_user_denied default_policy
                  (answered ["action_default_ask_confirmation"]
                            (Some "deny") (Some (1 # 5)))
                  example_domain).
Proof.
  split; [reflexivity |].
  exact (proj1 (denial_wins_over_fresh_fallback default_policy
                  (answered ["action_default_ask_confirmation"]
                            (Some "deny") (Some (1 # 5)))
                  example_domain example_domain_valid
                  (answered_not_awaiting _ _ _) eq_refl eq_refl eq_refl)).
Defined.

(** C3 as stated fails right after the second confirmation prompt has
    run, the latest message being a [deny]: the action before the prompt
    is the clarification prompt, yet the prediction is to listen, not
    the configured fallback action. *)
Lemma second_denial_shadowed_by_pending_prompt :
  executed (just_asked_confirmation_again (Some "deny") (Some (1 # 5))) !! 0
  = Some ACTION_DEFAULT_ASK_CONFIRMATION
  /\ last_intent_of (just_asked_confirmation_again (Some "deny") (Some (1 # 5)))
     = Some USER_INTENT_DENY
  /\ executed (just_asked_confirmation_again (Some "deny") (Some (1 # 5))) !! 1
     = Some ACTION_DEFAULT_ASK_CLARIFICATION
  /\ outcome (predict_action_probabilities default_policy
                (just_asked_confirmation_again (Some "deny") (Some (1 # 5)))
                example_domain)
     = confidence_scores_for ACTION_LISTEN_NAME FALLBACK_SCORE example_domain
  /\ outcome (predict_action_probabilities default_policy
                (just_asked_confirmation_again (Some "deny") (Some (1 # 5)))
                example_domain)
     <> confidence_scores_for (fallback_action_name default_policy)
                              FALLBACK_SCORE example_domain.
Proof. repeat split; by_evaluation. Qed.

Lemma denial_asks_to_clarify_once_witness :
  outcome (predict_action_probabilities default_policy
             (answered ["action_default_ask_confirmation";
                        "action_default_ask_clarification"]
                       (Some "deny") (Some (9 # 10)))
             example_domain)
  = confidence_scores_for "action_default_fallback" 1 example_domain
  /\ outcome (predict_action_probabilities default_policy
                (answered ["action_default_ask_confirmation"]
                          (Some "deny") (Some (9 # 10)))
                example_domain)
     = confidence_scores_for "action_default_ask_clarification" 1 example_domain.
Proof.
  split.
  - exact (proj1 (denial_asks_to_clarify_once default_policy
                    (answered ["action_default_ask_confirmation";
                               "action_default_ask_clarification"]
                              (Some "deny") (Some (9 # 10)))
                    example_domain example_domain_valid
                    (answered_not_awaiting _ _ _) eq_refl eq_refl) eq_refl).
  - apply (proj2 (denial_asks_to_clarify_once default_policy
                    (answered ["action_default_ask_confirmation"]
                              (Some "deny") (Some (9 # 10)))
                    example_domain example_domain_valid
                    (answered_not_awaiting _ _ _) eq_refl eq_refl)).
    simpl. discriminate.
Defined.

(** C4 as stated fails right after the clarification prompt has run on a
    low-confidence message: the last executed system action is the
    clarification prompt and the fallback verdict is true, yet the
    prediction is to listen, not the confirmation prompt. *)
Lemma clarification_shadowed_by_pending_prompt :
  executed (just_asked_clarification (Some "greet") (Some (1 # 5))) !! 0
  = Some ACTION_DEFAULT_ASK_CLARIFICATION
  /\ verdict default_policy
       (just_asked_clarification (Some "greet") (Some (1 # 5))) = true
  /\ outcome (predict_action_probabilities default_policy
                (just_asked_clarification (Some "greet") (Some (1 # 5)))
                example_domain)
     = confidence_scores_for ACTION_LISTEN_NAME FALLBACK_SCORE example_domain
  /\ outcome (predict_action_probabilities default_policy
                (just_asked_clarification (Some "greet") (Some (1 # 5)))
                example_domain)
     <> confidence_scores_for ACTION_DEFAULT_ASK_CONFIRMATION
                              FALLBACK_SCORE example_domain.
Proof. repeat split; by_evaluation. Qed.

Lemma clarification_never_repeats_witness :
  verdict default_policy
    (answered ["action_default_ask_clarification";
               "action_default_ask_confirmation"]
              (Some "greet") (Some (1 # 5))) = true
  /\ outcome (predict_action_probabilities default_policy
                (answered ["action_default_ask_clarification";
                           "action_default_ask_confirmation"]
                          (Some "greet") (Some (1 # 5)))
                example_domain)
     = confidence_scores_for "action_default_ask_confirmation" 1 example_domain.
Proof.
  split; [reflexivity |].
  apply (clarification_never_repeats default_policy
           (answered ["action_default_ask_clarification";
                      "action_default_ask_confirmation"]
                     (Some "greet") (Some (1 # 5)))
           example_domain example_domain_valid (answered_not_awaiting _ _ _)).
  - simpl. discriminate.
  - reflexivity.
  - reflexivity.
Defined.

(** C5 as stated fails right after the confirmation prompt has run on a
    low-confidence message classified as [confirm]: the prediction is to
    listen, not the revert action. *)
Lemma confirmation_shadowed_by_pending_prompt :
  executed (just_asked_confirmation (Some "confirm") (Some (1 # 5))) !! 0
  = Some ACTION_DEFAULT_ASK_CONFIRMATION
  /\ last_intent_of (just_asked_confirmation (Some "confirm") (Some (1 # 5)))
     = Some USER_INTENT_CONFIRM
  /\ outcome (predict_action_probabilities default_policy
                (just_asked_confirmation (Some "confirm") (Some (1 # 5)))
                example_domain)
     = confidence_scores_for ACTION_LISTEN_NAME FALLBACK_SCORE example_domain
  /\ outcome (predict_action_probabilities default_policy
                (just_asked_confirmation (Some "confirm") (Some (1 # 5)))
                example_domain)
     <> confidence_scores_for ACTION_REVERT_FALLBACK_EVENTS
                              FALLBACK_SCORE example_domain.
Proof. repeat split; by_evaluation. Qed.

Lemma confirmation_is_trusted_witness :
  verdict default_policy
    (answered ["action_default_ask_confirmation"] (Some "confirm") (Some (1 # 10)))
  = true
  /\ outcome (predict_action_probabilities default_policy
                (answered ["action_default_ask_confirmation"]
                          (Some "confirm") (Some (1 # 10)))
                example_domain)
     = confidence_scores_for "action_revert_fallback_events" 1 example_domain.
Proof.
  split; [reflexivity |].
  apply (confirmation_is_trusted default_policy
           (answered ["action_default_ask_confirmation"]
                     (Some "confirm") (Some (1 # 10)))
           example_domain example_domain_valid (answered_not_awaiting _ _ _)).
  - simpl. discriminate.
  - reflexivity.
  - reflexivity.
Defined.

(** C6 as stated fails for a policy whose NLU threshold is above 1.0:
    on the empty history the defaulted confidence 1.0 is below the
    threshold, rule 6 applies, and the prediction is the confirmation
    prompt, not the baseline vector of rule 7. *)
Lemma empty_history_meets_high_threshold :
  valid_domain example_domain
  /\ nlu_threshold wary_policy = 3 # 2
  /\ verdict wary_policy empty_tracker = true
  /\ outcome (predict_action_probabilities wary_policy empty_tracker
                example_domain)
     = confidence_scores_for ACTION_DEFAULT_ASK_CONFIRMATION FALLBACK_SCORE
                             example_domain
  /\ outcome (predict_action_probabilities wary_policy empty_tracker
                example_domain)
     <> fallback_scores wary_policy example_domain (core_threshold wary_policy).
Proof. repeat split; try by_evaluation; apply example_domain_valid. Qed.

Lemma empty_history_falls_through_witness :
  (nlu_threshold default_policy <= 1)%Q
  /\ outcome (predict_action_probabilities default_policy empty_tracker
                example_domain)
     = fallback_scores default_policy example_domain (3 # 10).
Proof.
  assert (Hthreshold : (nlu_threshold default_policy <= 1)%Q).
  { unfold Qle. simpl. lia. }
  split; [exact Hthreshold |].
  exact (proj1 (proj2 (proj2 (empty_history_falls_through default_policy
                                empty_tracker example_domain
                                example_domain_valid eq_refl eq_refl eq_refl))
                      Hthreshold)).
Defined.

(** C10 as stated fails in two ways.  Right after the confirmation
    prompt has run while the latest message has no intent name, rule 1
    applies and the prediction is to listen, not the revert action of
    rule 5.  And for a policy whose fallback action is the listen action
    itself, rule 1 applies to a nameless reply to the prompt as well. *)
Lemma nameless_intent_shadowed_by_rule_one :
  (intent_name (pd_intent (latest_message_parse_data
                             (just_asked_confirmation None None))) = None
   /\ executed (just_asked_confirmation None None) !! 0
      = Some ACTION_DEFAULT_ASK_CONFIRMATION
   /\ verdict default_policy (just_asked_confirmation None None) = false
   /\ outcome (predict_action_probabilities default_policy
                 (just_asked_confirmation None None) example_domain)
      = confidence_scores_for ACTION_LISTEN_NAME FALLBACK_SCORE example_domain
   /\ outcome (predict_action_probabilities default_policy
                 (just_asked_confirmation None None) example_domain)
      <> confidence_scores_for ACTION_REVERT_FALLBACK_EVENTS FALLBACK_SCORE
                               example_domain)
  /\ (latest_action_name
        (answered ["action_default_ask_confirmation"] None None)
      = Some ACTION_LISTEN_NAME
      /\ executed (answered ["action_default_ask_confirmation"] None None) !! 0
         = Some ACTION_DEFAULT_ASK_CONFIRMATION
      /\ verdict listening_policy
           (answered ["action_default_ask_confirmation"] None None) = false
      /\ outcome (predict_action_probabilities listening_policy
                    (answered ["action_default_ask_confirmation"] None None)
                    example_domain)
         = confidence_scores_for ACTION_LISTEN_NAME FALLBACK_SCORE example_domain
      /\ outcome (predict_action_probabilities listening_policy
                    (answered ["action_default_ask_confirmation"] None None)
                    example_domain)
         <> confidence_scores_for ACTION_REVERT_FALLBACK_EVENTS FALLBACK_SCORE
                                  example_domain).
Proof. repeat split; by_evaluation. Qed.

Lemma nameless_intent_is_neither_answer_witness :
  intent_name (pd_intent (latest_message_parse_data
                            (answered ["action_default_ask_confirmation"]
                                      None (Some (1 # 10))))) = None
  /\ outcome (predict_action_probabilities default_policy
                (answered ["action_default_ask_confirmation"]
                          None (Some (1 # 10)))
                example_domain)
     = confidence_scores_for "action_default_fallback" 1 example_domain.
Proof.
  split; [reflexivity |].
  exact (proj2 (proj2 (proj2 (proj2 (proj2
           (nameless_intent_is_neither_answer default_policy
              (answered ["action_default_ask_confirmation"] None (Some (1 # 10)))
              example_domain eq_refl)))))
           example_domain_valid (answered_not_awaiting _ _ _)
           rasa_prompts_differ eq_refl).
Defined.

Lemma json_objects_round_trip : json_round_trip.
Proof. intros meta. reflexivity. Qed.

Lemma load_persist_round_trip_witness :
  json_round_trip
  /\ load ["models"] (persist tuned_policy ["models"] no_files) = Ok tuned_policy
  /\ load ["models"] no_files = Ok default_policy.
Proof.
  split; [exact json_objects_round_trip |]. split.
  - apply (proj1 (load_persist_round_trip json_objects_round_trip)).
  - apply (proj2 (load_persist_round_trip json_objects_round_trip)).
    vm_compute. reflexivity.
Defined.

(** C8 as stated fails on a record with a key beyond the three fields:
    the record is persisted under an existing path, and loading it
    raises a type error instead of ignoring the key. *)
Lemma unknown_key_fails_to_load :
  os_path_exists files_with_unknown_key ["models"] = true
  /\ persisted_record files_with_unknown_key ["models"]
       {[ "nlu_threshold" := JNum (1 # 2); "priority" := JNum 1 ]}
  /\ load ["models"] files_with_unknown_key
     = Err (TypeError "unexpected keyword argument")
  /\ is_ok (load ["models"] files_with_unknown_key) = false.
Proof.
  repeat split; try by_evaluation.
  eexists. split; by_evaluation.
Qed.

Lemma load_defaults_missing_rejects_unknown_witness :
  os_path_exists files_with_partial_record ["models"] = true
  /\ load ["models"] files_with_partial_record
     = Ok {| nlu_threshold := 3 # 10;
             core_threshold := 1 # 5;
             fallback_action_name := "action_default_fallback" |}.
Proof.
  assert (Hdir : os_path_exists files_with_partial_record ["models"] = true)
    by (vm_compute; reflexivity).
  assert (Hrecord : persisted_record files_with_partial_record ["models"]
                      {[ "core_threshold" := JNum (1 # 5) ]}).
  { eexists. split; [vm_compute; reflexivity | reflexivity]. }
  split; [exact Hdir |].
  exact (proj1 (load_defaults_missing_rejects_unknown
                  files_with_partial_record ["models"] _ Hdir Hrecord)
               None (Some (1 # 5)) None eq_refl).
Defined.

(** ** The further properties at concrete inputs *)

Lemma example_domain_complete action :
  action ∈ recommended_actions default_policy ->
  action ∈ action_names example_domain.
Proof.
  unfold recommended_actions. rewrite !elem_of_cons, elem_of_nil.
  intros [-> | [-> | [-> | [-> | [-> | []]]]]]; by_evaluation.
Qed.

Lemma rasa_score_not_zero : ~ (FALLBACK_SCORE == 0)%Q.
Proof. intros Hzero. vm_compute in Hzero. discriminate Hzero. Qed.

Lemma default_core_threshold_below_score :
  ~ (core_threshold default_policy == FALLBACK_SCORE)%Q.
Proof. intros Hsame. vm_compute in Hsame. discriminate Hsame. Qed.

Lemma no_files_well_formed : well_formed no_files.
Proof. apply map_Forall_empty. Qed.

Lemma just_asked_confirmation_awaits name confidence :
  latest_action_name (just_asked_confirmation name confidence)
  ∈ [Some ACTION_DEFAULT_ASK_CONFIRMATION;
     Some ACTION_DEFAULT_ASK_CLARIFICATION;
     Some (fallback_action_name default_policy)].
Proof. by_evaluation. Qed.

Lemma awaiting_input_listens_witness :
  outcome (predict_action_probabilities default_policy
             (just_asked_confirmation (Some "greet") (Some (9 # 10)))
             example_domain)
  = confidence_scores_for "action_listen" 1 example_domain.
Proof.
  exact (proj1 (awaiting_input_listens default_policy
                  (just_asked_confirmation (Some "greet") (Some (9 # 10)))
                  example_domain example_domain_valid
                  (just_asked_confirmation_awaits _ _))).
Defined.

Lemma fresh_low_confidence_asks_confirmation_witness :
  verdict default_policy (answered [] (Some "greet") (Some (1 # 5))) = true
  /\ outcome (predict_action_probabilities default_policy
                (answered [] (Some "greet") (Some (1 # 5))) example_domain)
     = confidence_scores_for "action_default_ask_confirmation" 1 example_domain.
Proof.
  split; [reflexivity |].
  apply (fresh_low_confidence_asks_confirmation default_policy
           (answered [] (Some "greet") (Some (1 # 5)))
           example_domain example_domain_valid (answered_not_awaiting _ _ _)).
  - simpl. discriminate.
  - simpl. discriminate.
  - reflexivity.
Defined.

Lemma confident_turn_defers_to_baseline_witness :
  verdict default_policy
    (answered ["utter_greet"] (Some "greet") (Some (9 # 10))) = false
  /\ outcome (predict_action_probabilities default_policy
                (answered ["utter_greet"] (Some "greet") (Some (9 # 10)))
                example_domain)
     = fallback_scores default_policy example_domain (3 # 10).
Proof.
  split; [reflexivity |].
  apply (confident_turn_defers_to_baseline default_policy
           (answered ["utter_greet"] (Some "greet") (Some (9 # 10)))
           example_domain example_domain_valid (answered_not_awaiting _ _ _)).
  - simpl. discriminate.
  - simpl. discriminate.
  - reflexivity.
Defined.

Lemma other_reply_to_confirmation_witness :
  verdict default_policy
    (answered ["action_default_ask_confirmation"] (Some "greet") (Some (9 # 10)))
  = false
  /\ outcome (predict_action_probabilities default_policy
                (answered ["action_default_ask_confirmation"]
                          (Some "greet") (Some (9 # 10)))
                example_domain)
     = confidence_scores_for "action_revert_fallback_events" 1 example_domain.
Proof.
  split; [reflexivity |].
  assert (Hconfirm : last_intent_of
                       (answered ["action_default_ask_confirmation"]
                                 (Some "greet") (Some (9 # 10)))
                     <> Some USER_INTENT_CONFIRM) by (simpl; discriminate).
  assert (Hdeny : last_intent_of
                    (answered ["action_default_ask_confirmation"]
                              (Some "greet") (Some (9 # 10)))
                  <> Some USER_INTENT_DENY) by (simpl; discriminate).
  exact (proj1 (other_reply_to_confirmation default_policy
                  (answered ["action_default_ask_confirmation"]
                            (Some "greet") (Some (9 # 10)))
                  example_domain example_domain_valid
                  (answered_not_awaiting _ _ _)
                  rasa_prompts_differ eq_refl Hconfirm Hdeny) eq_refl).
Defined.

Lemma prediction_recommends_one_reserved_action_witness :
  exists action score,
    outcome (predict_action_probabilities default_policy
               (answered ["utter_greet"] (Some "greet") (Some (1 # 5)))
               example_domain)
    = confidence_scores_for action score example_domain
    /\ action ∈ recommended_actions default_policy
    /\ (score = FALLBACK_SCORE
        \/ (score = core_threshold default_policy
            /\ action = fallback_action_name default_policy)).
Proof.
  exact (prediction_recommends_one_reserved_action default_policy
           (answered ["utter_greet"] (Some "greet") (Some (1 # 5)))
           example_domain example_domain_valid).
Defined.

Lemma prediction_succeeds_on_complete_domain_witness :
  exists i action score scores,
    outcome (predict_action_probabilities default_policy
               (answered ["utter_greet"] (Some "greet") (Some (1 # 5)))
               example_domain) = Ok scores
    /\ action ∈ recommended_actions default_policy
    /\ action_names example_domain !! i = Some action
    /\ length scores = length (action_names example_domain)
    /\ scores !! i = Some score
    /\ forall j, j <> i -> j < length (action_names example_domain) ->
                 scores !! j = Some 0%Q.
Proof.
  exact (prediction_succeeds_on_complete_domain default_policy
           (answered ["utter_greet"] (Some "greet") (Some (1 # 5)))
           example_domain example_domain_valid example_domain_complete).
Defined.

Lemma prediction_errors_witness :
  outcome (predict_action_probabilities default_policy empty_tracker
             domain_without_confirm)
  = Err (InvalidDomain invalid_domain_message)
  /\ ~ valid_domain domain_without_confirm.
Proof.
  assert (Herr : outcome (predict_action_probabilities default_policy
                            empty_tracker domain_without_confirm)
                 = Err (InvalidDomain invalid_domain_message))
    by (vm_compute; reflexivity).
  split; [exact Herr |].
  destruct (prediction_errors default_policy empty_tracker
              domain_without_confirm _ Herr)
    as [[_ Hinvalid] | (action & Hunknown & _)].
  - exact Hinvalid.
  - discriminate Hunknown.
Defined.

Lemma gives_up_only_after_confirmation_witness :
  outcome (predict_action_probabilities default_policy
             (answered ["action_default_ask_confirmation";
                        "action_default_ask_clarification"]
                       (Some "deny") (Some (9 # 10)))
             example_domain)
  = confidence_scores_for (fallback_action_name default_policy)
                          FALLBACK_SCORE example_domain
  /\ executed (answered ["action_default_ask_confirmation";
                        "action_default_ask_clarification"]
                       (Some "deny") (Some (9 # 10))) !! 0
     = Some ACTION_DEFAULT_ASK_CONFIRMATION.
Proof.
  assert (Hout : outcome (predict_action_probabilities default_policy
                            (answered ["action_default_ask_confirmation";
                                       "action_default_ask_clarification"]
                                      (Some "deny") (Some (9 # 10)))
                            example_domain)
                 = confidence_scores_for (fallback_action_name default_policy)
                                         FALLBACK_SCORE example_domain)
    by (vm_compute; reflexivity).
  split; [exact Hout |].
  apply (gives_up_only_after_confirmation default_policy
           (answered ["action_default_ask_confirmation";
                      "action_default_ask_clarification"]
                     (Some "deny") (Some (9 # 10)))
           example_domain example_domain_valid).
  - by_evaluation.
  - by_evaluation.
  - exact rasa_score_not_zero.
  - exact default_core_threshold_below_score.
  - exact Hout.
Defined.

Lemma answers_exclude_each_other_witness :
  outcome (_has_user_denied (Some "deny")
             (answered ["action_default_ask_confirmation"] (Some "deny") None))
  = Ok true
  /\ outcome (has_user_confirmed (Some "deny")
                (answered ["action_default_ask_confirmation"] (Some "deny") None))
     = Ok false
  /\ outcome (has_user_clarified
                (answered ["action_default_ask_confirmation"] (Some "deny") None))
     = Ok false.
Proof.
  split; [reflexivity |].
  apply (proj1 (proj2 (answers_exclude_each_other (Some "deny")
                         (answered ["action_default_ask_confirmation"]
                                   (Some "deny") None)
                         rasa_prompts_differ))).
  reflexivity.
Defined.

Lemma earlier_denial_is_asked_only_on_denial_witness :
  CallLastExecutedHas ACTION_DEFAULT_ASK_CLARIFICATION 1
    ∈ accesses (predict_action_probabilities default_policy
                  (answered ["action_default_ask_confirmation"]
                            (Some "deny") (Some (9 # 10)))
                  example_domain).
Proof.
  apply (earlier_denial_is_asked_only_on_denial default_policy
           (answered ["action_default_ask_confirmation"]
                     (Some "deny") (Some (9 # 10)))
           example_domain example_domain_valid).
  split; [apply answered_not_awaiting | split; reflexivity].
Defined.


Lemma persist_elsewhere_keeps_load_witness :
  load ["backup"] (persist tuned_policy ["models"] no_files)
  = load ["backup"] no_files.
Proof.
  apply (persist_elsewhere_keeps_load tuned_policy ["models"] ["backup"]
           no_files no_files_well_formed).
  discriminate.
Defined.

Lemma persisted_record_has_three_fields_witness :
  json_round_trip
  /\ dom (record_of (Some (1 # 2)) (Some (1 # 5)) (Some "utter_handoff"))
     = init_keywords.
Proof.
  split; [exact json_objects_round_trip |].
  apply (persisted_record_has_three_fields tuned_policy ["models"] no_files
           (record_of (Some (1 # 2)) (Some (1 # 5)) (Some "utter_handoff"))
           json_objects_round_trip).
  eexists. split; [| reflexivity].
  unfold persist, dump_obj_as_json_to_file. cbn [files].
  apply lookup_insert_eq.
Defined.
